(** * Booking backend: payload models, routes and entity lifecycle

    A shallow embedding of [pydantic_models.py], [main.py] and
    [app/datamanager/data_manager_interface.py].

    - Python values are the inductive [pyval]; a Python [str] is the list
      of its code points.
    - A validator is a function into [res], the error monad of the
      exceptions a validator body can raise.
    - A payload model is a list of [field]s; [validate_model] is what the
      framework does with a request body before a route body runs.
    - Routes thread the database through explicitly. *)

From Stdlib Require Import ZArith NArith List Ascii String Bool Lia.
From stdpp Require Import base option list gmap strings fin_maps.
Import ListNotations.

Local Open Scope string_scope.
Local Open Scope Z_scope.

(** ** Python values *)

(** A Python [str]: its code points. *)
Definition pystr := list N.

Fixpoint str (s : string) : pystr :=
  match s with
  | EmptyString => []
  | String a s' => N_of_ascii a :: str s'
  end.

(** [datetime.date]: compared as the tuple (year, month, day). *)
Record date := Date { year : Z; month : Z; day : Z }.

(** [datetime.time]. *)
Record time := Time { hour : Z; minute : Z; second : Z }.

Inductive pyval :=
| VNone
| VBool (b : bool)
| VInt (n : Z)
| VStr (s : pystr)
| VDecimal (unscaled : Z) (places : nat)   (* unscaled * 10^-places *)
| VDate (d : date)
| VTime (t : time)
| VDateTime (d : date) (t : time)
| VDelta (seconds : Z)                      (* timedelta.total_seconds() *)
| VList (l : list (option pystr)).          (* List[Optional[HttpUrl]] *)

#[global] Instance date_eq_dec : EqDecision date.
Proof. solve_decision. Defined.

#[global] Instance time_eq_dec : EqDecision time.
Proof. solve_decision. Defined.

#[global] Instance pyval_eq_dec : EqDecision pyval.
Proof. solve_decision. Defined.

(** A dict with string keys: a request body, a stored row, a response. *)
Abbreviation row := (gmap string pyval).

(** ** Exceptions and the validator monad *)

Inductive exn :=
| ValueError (msg : string)
| TypeError
| AttributeError.

Inductive res (A : Type) :=
| Ret (a : A)
| Raise (e : exn).
Arguments Ret {A} a.
Arguments Raise {A} e.

#[global] Instance res_bind : MBind res := fun A B k m =>
  match m with
  | Ret a => k a
  | Raise e => Raise e
  end.

(** Python's short-circuit [and] / [or], on conditions that may raise. *)
Definition py_and (a b : res bool) : res bool :=
  a ≫= λ x : bool, if x then b else Ret false.

Definition py_or (a b : res bool) : res bool :=
  a ≫= λ x : bool, if x then Ret true else b.

(** Truth value of an object in a condition. *)
Definition truthy (v : pyval) : bool :=
  match v with
  | VNone => false
  | VBool b => b
  | VInt n => negb (n =? 0)
  | VStr s => negb (bool_decide (s = []))
  | VDecimal u _ => negb (u =? 0)
  | VDate _ | VTime _ | VDateTime _ _ => true
  | VDelta s => negb (s =? 0)
  | VList l => match l with [] => false | _ => true end
  end.

(** Attribute reads [v.hour], [v.minute]: only [time] and [datetime]
    objects have them. *)
Definition get_hour (v : pyval) : res Z :=
  match v with
  | VTime t | VDateTime _ t => Ret (hour t)
  | _ => Raise AttributeError
  end.

Definition get_minute (v : pyval) : res Z :=
  match v with
  | VTime t | VDateTime _ t => Ret (minute t)
  | _ => Raise AttributeError
  end.

(** [d1 < d2] on dates. *)
Definition date_lt (d1 d2 : date) : bool :=
  (year d1 <? year d2)
  || ((year d1 =? year d2)
      && ((month d1 <? month d2)
          || ((month d1 =? month d2) && (day d1 <? day d2)))).

(** ** Regular expressions, as far as the source's pattern needs them *)

Definition plus_sign : N := 43%N.   (* '+' *)
Definition dash : N := 45%N.        (* '-' *)
Definition newline : N := 10%N.     (* '\n' *)

Inductive atom :=
| CDigit                  (* \d *)
| CSpace                  (* \s *)
| CLit (c : N).           (* an escaped or plain character *)

(** A character class: a bracket set of atoms, or a single atom. *)
Definition cls := list atom.

Inductive item :=
| Bol                     (* ^ *)
| Eol                     (* $ *)
| One (c : cls)
| Opt (c : cls)           (* c? *)
| Plus (c : cls).         (* c+ *)

(** r"^\+?\d[\d\s\-]+$" *)
Definition phone_pattern : list item :=
  [Bol; Opt [CLit plus_sign]; One [CDigit];
   Plus [CDigit; CSpace; CLit dash]; Eol].

(** The digits 0 to 9, and the characters below U+0080 that [\s]
    matches in a [str] pattern: the space, tab to carriage return, and
    the four separators U+001C to U+001F. *)
Definition ascii_digit (c : N) : bool := ((48 <=? c) && (c <=? 57))%N.
Definition ascii_space (c : N) : bool :=
  ((c =? 32) || ((9 <=? c) && (c <=? 13)) || ((28 <=? c) && (c <=? 31)))%N.

Definition space : N := 32%N.       (* ' ' *)
Definition tab : N := 9%N.          (* '\t' *)

Definition strip_plus (s : pystr) : pystr :=
  match s with
  | c :: t => if (c =? plus_sign)%N then t else s
  | [] => []
  end.

(** The telephone pattern in the words of the specification: an optional
    leading '+', a first digit, then one or more characters each of
    which is a digit, a space or a dash. A digit is one of 0 to 9 and a
    space is the character U+0020. *)
Definition spec_tel_char (c : N) : bool :=
  ascii_digit c || (c =? space)%N || (c =? dash)%N.

Definition spec_phone_pattern (s : pystr) : bool :=
  match strip_plus s with
  | d :: rest =>
      ascii_digit d && negb (bool_decide (rest = [])) && forallb spec_tel_char rest
  | [] => false
  end.

(** A sample of the [Currency] enumeration of the [iso4217] package:
    some of the alphabetic codes it holds, "XXX" (no currency) among
    them. The table is not part of the repository; the development is
    parametric in it and uses this sample for concrete evaluations
    only. *)
Definition currency_sample : list pystr := map str
  ["AUD"; "CAD"; "CHF"; "CNY"; "DKK"; "EUR"; "GBP"; "JPY"; "NOK"; "SEK";
   "USD"; "XXX"].

(** ** The route table of [main.py] *)

Module Router.

Inductive http_method := GET | POST | PUT | PATCH | DELETE | OTHER.

(** A piece of a path template: literal text or [{name}]. *)
Inductive segment :=
| Lit (s : string)
| Param (name : string).

(** The path operation functions, by name. *)
Inductive endpoint :=
| root | login_for_access_token | sign_up | get_user_me | update_user
| soft_delete_user | create_profile | get_profile | update_profile
| delete_profile | create_contract | get_contract | update_contract
| disable_contract | show_itinerary | create_event | get_event
| update_event | delete_event | create_accommodation | get_accommodation
| update_accommodation | delete_accommodation.

Record route := Route {
  r_method : http_method;
  r_path : list segment;
  r_endpoint : endpoint
}.

(** The decorators of [main.py], in the order of the file. A template is
    given by its pieces between the slashes: "/" is [[Lit ""]] and
    "/user/me/" ends in an empty piece. The documentation routes that
    [FastAPI()] registers by itself (/openapi.json, /docs,
    /docs/oauth2-redirect, /redoc) are left out: no path they answer
    fits a template of this table. *)
Definition routes : list route :=
  [ Route GET [Lit ""] root;
    Route POST [Lit "token"] login_for_access_token;
    Route POST [Lit "user"] sign_up;
    Route GET [Lit "user"; Lit "me"; Lit ""] get_user_me;
    Route PUT [Lit "user"] update_user;
    Route PATCH [Lit "user"] soft_delete_user;
    Route POST [Lit "profile"] create_profile;
    Route GET [Lit "profile"; Param "profile_id"] get_profile;
    Route PUT [Lit "profile"; Param "profile_id"] update_profile;
    Route DELETE [Lit "profile"; Param "profile_id"] delete_profile;
    Route POST [Lit "contract"] create_contract;
    Route GET [Lit "contract"; Param "contract_id"] get_contract;
    Route PUT [Lit "contract"; Param "contract_id"] update_contract;
    Route PATCH [Lit "contract"; Param "contract_id"] disable_contract;
    Route GET [Lit "contract"; Lit "itinerary"] show_itinerary;
    Route POST [Lit "event"] create_event;
    Route GET [Lit "event"; Param "event_id"] get_event;
    Route PUT [Lit "event"; Param "event_id"] update_event;
    Route DELETE [Lit "event"; Param "event_id"] delete_event;
    Route POST [Lit "accommodation"] create_accommodation;
    Route GET [Lit "accommodation"; Param "accommodation_id"] get_accommodation;
    Route PUT [Lit "accommodation"; Param "accommodation_id"] update_accommodation;
    Route DELETE [Lit "accommodation"; Param "accommodation_id"] delete_accommodation ].

(** The pieces of a request path: the text between the slashes, after
    the leading one. *)
Fixpoint split_slash (s : string) : list string :=
  match s with
  | EmptyString => [EmptyString]
  | String c s' =>
      if Ascii.eqb c "/"%char then EmptyString :: split_slash s'
      else match split_slash s' with
           | h :: t => String c h :: t
           | [] => [String c EmptyString]
           end
  end.

Definition path_pieces (path : string) : option (list string) :=
  match path with
  | String c rest => if Ascii.eqb c "/"%char then Some (split_slash rest) else None
  | EmptyString => None
  end.

(** A template matches piece by piece: a literal its own text, a
    parameter any non-empty piece, which it binds. *)
Fixpoint match_segments (pattern : list segment) (pieces : list string)
    : option (list (string * string)) :=
  match pattern, pieces with
  | [], [] => Some []
  | Lit s :: pattern', x :: pieces' =>
      if String.eqb s x then match_segments pattern' pieces' else None
  | Param name :: pattern', x :: pieces' =>
      if String.eqb x EmptyString then None
      else option_map (cons (name, x)) (match_segments pattern' pieces')
  | _, _ => None
  end.

Definition method_eqb (a b : http_method) : bool :=
  match a, b with
  | GET, GET | POST, POST | PUT, PUT | PATCH, PATCH | DELETE, DELETE
  | OTHER, OTHER => true
  | _, _ => false
  end.

Inductive dispatched :=
| Handled (e : endpoint) (path_params : list (string * string))
| MethodNotAllowed            (* a template matches, no method does *)
| NoMatch.                    (* no template matches the path *)

(** The router walks the routes in order: the first route whose
    template and method both match handles the request; a template
    that matches under another method is remembered. *)
Fixpoint first_match (rs : list route) (m : http_method) (pieces : list string)
    (partial : bool) : dispatched :=
  match rs with
  | [] => if partial then MethodNotAllowed else NoMatch
  | r :: rs' =>
      match match_segments (r_path r) pieces with
      | Some params =>
          if method_eqb (r_method r) m then Handled (r_endpoint r) params
          else first_match rs' m pieces true
      | None => first_match rs' m pieces partial
      end
  end.

Definition dispatch (m : http_method) (path : string) : dispatched :=
  match path_pieces path with
  | Some pieces => first_match routes m pieces false
  | None => NoMatch
  end.

End Router.

(** ** The migration 96ecf5a603bc *)

Module Migration.

(** Column types as the DDL renders them: [sa.String(length=n)] and
    [sa.VARCHAR(length=n)] are both VARCHAR(n). *)
Inductive sqltype := VARCHAR (length : nat).

Record column := Column {
  col_name : string;
  col_type : sqltype;
  col_nullable : bool
}.

(** A schema: the columns of each table, in order. The rows are not
    part of it: an operation below is [None] when the schema alone rules
    the statement out, and otherwise gives the schema the statement
    leads to once the database has carried it out. What a database
    refuses on other grounds (a NOT NULL column without a default added
    to a table that holds rows) lies outside this model. *)
Abbreviation schema := (gmap string (list column)).

Definition has_column (name : string) (cols : list column) : bool :=
  existsb (fun c => String.eqb (col_name c) name) cols.

(** [op.add_column]: the table must be there and must not have a
    column of that name; the column goes last. *)
Definition add_column (table : string) (c : column) (s : schema) : option schema :=
  match s !! table with
  | Some cols =>
      if has_column (col_name c) cols then None
      else Some (<[table := (cols ++ [c])%list]> s)
  | None => None
  end.

(** [op.drop_column]: the table and the column must be there. *)
Definition drop_column (table : string) (name : string) (s : schema) : option schema :=
  match s !! table with
  | Some cols =>
      if has_column name cols
      then Some (<[table := filter (fun c => col_name c <> name) cols]> s)
      else None
  | None => None
  end.

Definition upgrade (s : schema) : option schema :=
  s1 ← add_column "accommodation"
         (Column "telephone_number" (VARCHAR 255) false) s;
  drop_column "accommodation" "telephon_number" s1.

Definition downgrade (s : schema) : option schema :=
  s1 ← add_column "accommodation"
         (Column "telephon_number" (VARCHAR 255) false) s;
  drop_column "accommodation" "telephone_number" s1.

(** The accommodation table before the migration, for the worked
    examples. *)
Definition sample_schema : schema :=
  {[ "accommodation" :=
       [ Column "id" (VARCHAR 36) false;
         Column "name" (VARCHAR 255) false;
         Column "telephon_number" (VARCHAR 255) false;
         Column "email" (VARCHAR 255) true ] ]}.

End Migration.

Section Backend.
(** The character tables behind [\d] and [\s] belong to the [re]
    module. *)
Variables is_digit is_space : N -> bool.

Definition in_atom (a : atom) (ch : N) : bool :=
  match a with
  | CDigit => is_digit ch
  | CSpace => is_space ch
  | CLit x => (ch =? x)%N
  end.

Definition in_cls (c : cls) (ch : N) : bool :=
  existsb (fun a => in_atom a ch) c.

(** [$] without MULTILINE: at the end, or just before a final newline. *)
Definition at_end (s : pystr) : bool :=
  match s with
  | [] => true
  | [c] => (c =? newline)%N
  | _ => false
  end.

(** Backtracking matcher: does the pattern match a prefix of [s]?
    [bos] tells whether we are still at the beginning of the string. *)
Fixpoint match_here (p : list item) (bos : bool) (s : pystr) : bool :=
  match p with
  | [] => true
  | Bol :: p' => bos && match_here p' bos s
  | Eol :: p' => at_end s && match_here p' bos s
  | One c :: p' =>
      match s with
      | ch :: s' => in_cls c ch && match_here p' false s'
      | [] => false
      end
  | Opt c :: p' =>
      match s with
      | ch :: s' => in_cls c ch && match_here p' false s'
      | [] => false
      end
      || match_here p' bos s
  | Plus c :: p' =>
      (fix more (s : pystr) : bool :=
         match s with
         | ch :: s' => in_cls c ch && (more s' || match_here p' false s')
         | [] => false
         end) s
  end.

(** [re.match(pattern, s)] as a truth value. *)
Definition re_match (p : list item) (s : pystr) : bool := match_here p true s.

(** [validate_phone_number] of UserCreatePydantic, UserNoPwdPydantic,
    UserUpdatePydantic and AccommodationPydantic (the four bodies are
    the same). [re.match] raises TypeError on a non-string. *)
Definition validate_phone_number (v : pyval) : res pyval :=
  match v with
  | VStr s =>
      if negb (re_match phone_pattern s)
      then Raise (ValueError "Invalid telephone number format")
      else Ret v
  | _ => Raise TypeError
  end.

(** What the regular expression says, without the matcher: an optional
    leading '+', a character of [\d], then one or more characters of
    the class [[\d\s\-]]. *)
Definition class_char (c : N) : bool :=
  is_digit c || is_space c || (c =? dash)%N.

Definition phone_shape (s : pystr) : bool :=
  match strip_plus s with
  | d :: rest =>
      is_digit d && negb (bool_decide (rest = [])) && forallb class_char rest
  | [] => false
  end.

(** ** Validators of the event and contract models *)

(** [validate_time_range] of EventPydantic and EventUpdatePydantic:
    [if time_val and time_val.hour < 0 or time_val.hour > 23
        or time_val.minute < 0 or time_val.minute > 59: raise ValueError]
    Python parses the condition as [(a and b) or c or d or e]. *)
Definition time_range_cond (time_val : pyval) : res bool :=
  py_or (py_and (Ret (truthy time_val))
                (get_hour time_val ≫= λ h, Ret (h <? 0)))
 (py_or (get_hour time_val ≫= λ h, Ret (23 <? h))
 (py_or (get_minute time_val ≫= λ m, Ret (m <? 0))
        (get_minute time_val ≫= λ m, Ret (59 <? m)))).

Definition validate_time_range (time_val : pyval) : res pyval :=
  time_range_cond time_val ≫= λ c : bool,
    if c then Raise (ValueError "Time values must be within a valid 24-hour range")
    else Ret time_val.

(** [validate_duration]: [duration.total_seconds() <= 0]. *)
Definition validate_duration (duration : pyval) : res pyval :=
  match duration with
  | VDelta s =>
      if s <=? 0
      then Raise (ValueError "Duration must be a positive time interval")
      else Ret duration
  | _ => Raise AttributeError
  end.

(** [validate_future_date]; [today] is [date.today()], read when the
    validator runs. *)
Definition validate_future_date (today : date) (date_val : pyval) : res pyval :=
  match date_val with
  | VDate d =>
      if date_lt d today
      then Raise (ValueError "Date must be today or in the future")
      else Ret date_val
  | _ => Raise TypeError
  end.

(** The members of the [Currency] enumeration of the [iso4217]
    package, by value. *)
Variable Currency : list pystr.

(** [validate_currency_code] of ContractPydantic and
    ContractUpdatePydantic: [Currency(v)] raises ValueError for every
    object that is not the value of a member; the handler re-raises
    it as ValueError. *)
Definition validate_currency_code (v : pyval) : res pyval :=
  match v with
  | VStr s =>
      if bool_decide (s ∈ Currency) then Ret v
      else Raise (ValueError "Invalid ISO 4217 currency code")
  | _ => Raise (ValueError "Invalid ISO 4217 currency code")
  end.

(** ** Payload models *)

Inductive ftype :=
| TStr | TInt | TBool
| TDecimal (places : nat)       (* Decimal, Field(decimal_places=...) *)
| TDate | TTime | TDateTime | TDelta
| TEmail                        (* EmailStr *)
| TUrl                          (* HttpUrl *)
| TUrlList.                     (* List[Optional[HttpUrl]] *)

Record field := Field {
  f_name : string;
  f_type : ftype;
  f_optional : bool;            (* Optional[...]: None is admitted *)
  f_default : option pyval;     (* None: the field is required *)
  f_validators : list (pyval -> res pyval)
}.

Definition model := list field.

(** The formats behind EmailStr and HttpUrl belong to the framework. *)
Variables email_ok url_ok : pystr -> bool.

(** The decimal places of [unscaled * 10^-places] that count for
    [decimal_places]: trailing zeros do not. *)
Fixpoint decimal_places (unscaled : Z) (places : nat) : nat :=
  match places with
  | O => O
  | S q => if unscaled mod 10 =? 0 then decimal_places (unscaled / 10) q else places
  end.

(** [timedelta.min] and [timedelta.max], in whole seconds. *)
Definition timedelta_min : Z := -86399999913600.
Definition timedelta_max : Z := 86399999999999.

(** The type of a field, on the object the field receives. A payload
    holds, for each field, the Python object that the framework's
    conversion of the JSON input hands to the field: an input sent as
    "7" for an [int] field arrives as 7, an ISO 8601 string for a
    [date] field as a date. That conversion belongs to pydantic and is
    not part of this file; an input it cannot convert is represented
    here by an object of another type, which the field refuses. *)
Definition has_type (t : ftype) (v : pyval) : bool :=
  match t, v with
  | TStr, VStr _ => true
  | TInt, VInt _ => true
  | TBool, VBool _ => true
  | TDecimal p, VDecimal u q => (decimal_places u q <=? p)%nat
  | TDate, VDate _ => true
  | TTime, VTime _ => true
  | TDateTime, VDateTime _ _ => true
  | TDelta, VDelta s => (timedelta_min <=? s) && (s <=? timedelta_max)
  | TEmail, VStr s => email_ok s
  | TUrl, VStr s => url_ok s
  | TUrlList, VList l =>
      forallb (fun o => match o with Some u => url_ok u | None => true end) l
  | _, _ => false
  end.

Definition type_ok (f : field) (v : pyval) : bool :=
  match v with
  | VNone => f_optional f
  | _ => has_type (f_type f) v
  end.

(** The field validators run in order on the type-checked value. *)
Fixpoint run_validators (vs : list (pyval -> res pyval)) (v : pyval) : res pyval :=
  match vs with
  | [] => Ret v
  | f :: vs' => f v ≫= run_validators vs'
  end.

(** A validated model object: the value of every field, and the names
    of the fields the payload supplied ([model_fields_set]). *)
Record model_instance := Inst {
  values : gmap string pyval;
  fields_set : gset string
}.

Inductive validated :=
| Valid (inst : model_instance)
| Invalid (errors : list string)   (* ValidationError, fields at fault *)
| Raised (e : exn).                (* any other exception escapes *)

Definition set_field (name : string) (v : pyval) (inst : model_instance)
  : model_instance :=
  Inst (<[name := v]> (values inst)) ({[name]} ∪ fields_set inst).

Definition default_field (name : string) (v : pyval) (inst : model_instance)
  : model_instance :=
  Inst (<[name := v]> (values inst)) (fields_set inst).

(** Field by field, in declaration order. A missing required field, a
    value of the wrong type and a ValueError of a validator are
    collected; a validator is not run on a default; keys of the payload
    that are not fields are ignored. *)
Fixpoint validate_fields (fs : list field) (payload : gmap string pyval)
    (inst : model_instance) (errs : list string) : validated :=
  match fs with
  | [] => match errs with [] => Valid inst | _ => Invalid (rev errs) end
  | f :: fs' =>
      match payload !! f_name f with
      | None =>
          match f_default f with
          | Some d => validate_fields fs' payload (default_field (f_name f) d inst) errs
          | None => validate_fields fs' payload inst (f_name f :: errs)
          end
      | Some v =>
          if type_ok f v then
            match run_validators (f_validators f) v with
            | Ret v' => validate_fields fs' payload (set_field (f_name f) v' inst) errs
            | Raise (ValueError _) => validate_fields fs' payload inst (f_name f :: errs)
            | Raise e => Raised e
            end
          else validate_fields fs' payload inst (f_name f :: errs)
      end
  end.

Definition validate_model (m : model) (payload : gmap string pyval) : validated :=
  validate_fields m payload (Inst ∅ ∅) [].

(** [model_dump(exclude_unset=True)]. *)
Definition model_dump_exclude_unset (inst : model_instance) : gmap string pyval :=
  filter (λ kv, kv.1 ∈ fields_set inst) (values inst).

(** [model_dump()]. *)
Definition model_dump (inst : model_instance) : gmap string pyval := values inst.

(** Field declarations: [name: T], [name: Optional[T]] (required, None
    admitted), [name: Optional[T] = None], [name: T = Field(d)]. *)
Definition req (name : string) (t : ftype) : field := Field name t false None [].
Definition opt_req (name : string) (t : ftype) : field := Field name t true None [].
Definition opt (name : string) (t : ftype) : field := Field name t true (Some VNone) [].
Definition dflt (name : string) (t : ftype) (d : pyval) : field :=
  Field name t false (Some d) [].
Definition checked (f : field) (v : pyval -> res pyval) : field :=
  Field (f_name f) (f_type f) (f_optional f) (f_default f) (f_validators f ++ [v]).

Definition UserCreatePydantic : model :=
  [ req "username" TStr; req "type_of_entity" TStr; req "password" TStr;
    req "name" TStr; req "surname" TStr; req "email_address" TEmail;
    checked (req "phone_number" TStr) validate_phone_number;
    opt "vat_id" TStr; opt "bank_account" TStr;
    dflt "is_active" TBool (VBool true);
    opt "deactivation_date" TDateTime; opt "delete_at" TDateTime ].

Definition UserNoPwdPydantic : model :=
  [ req "id" TInt; req "username" TStr; req "type_of_entity" TStr;
    req "name" TStr; req "surname" TStr; req "email_address" TEmail;
    checked (req "phone_number" TStr) validate_phone_number;
    opt "vat_id" TStr; opt "bank_account" TStr;
    req "is_active" TBool;
    opt "deactivation_date" TDateTime; opt "delete_at" TDateTime ].

Definition UserUpdatePydantic : model :=
  [ opt "username" TStr; opt "type_of_entity" TStr;
    opt "name" TStr; opt "surname" TStr; opt "email_address" TEmail;
    checked (opt "phone_number" TStr) validate_phone_number;
    opt "vat_id" TStr; opt "bank_account" TStr;
    opt "is_active" TBool;
    opt "deactivation_date" TDateTime; opt "delete_at" TDateTime ].

Definition ProfilePydantic : model :=
  [ req "name" TStr; req "performance_type" TStr; req "description" TStr;
    req "bio" TStr; req "social_media" TUrlList;
    opt "stage_plan" TUrl; opt "tech_rider" TUrl;
    req "photos" TUrlList; req "videos" TUrlList; req "audios" TUrlList;
    req "online_press" TUrlList; opt "website" TUrl ].

Definition ProfileUpdatePydantic : model :=
  [ opt_req "name" TStr; opt_req "performance_type" TStr;
    opt_req "description" TStr; opt_req "bio" TStr;
    req "social_media" TUrlList; opt "stage_plan" TUrl;
    req "photos" TUrlList; req "videos" TUrlList; req "audios" TUrlList;
    req "online_press" TUrlList; opt "website" TUrl ].

Definition ContractPydantic : model :=
  [ req "name" TStr; req "offeree_id" TInt; req "total_fee" (TDecimal 2);
    checked (req "currency_code" TStr) validate_currency_code;
    req "upon_signing" TInt; req "upon_completion" TInt;
    req "payment_method" TStr;
    opt "travel_expenses" (TDecimal 2);
    opt "accommodation_expenses" (TDecimal 2);
    opt "other_expenses" (TDecimal 2);
    dflt "disabled" TBool (VBool false);
    opt "disabled_at" TDateTime; opt "signed_at" TDateTime;
    opt "delete_at" TDateTime ].

(** The fields [disabled], [disabled_at], [signed_at] and [delete_at]
    are commented out in the source. *)
Definition ContractUpdatePydantic : model :=
  [ opt_req "name" TStr; opt_req "offeree_id" TInt;
    opt_req "total_fee" (TDecimal 2);
    checked (opt_req "currency_code" TStr) validate_currency_code;
    opt_req "upon_signing" TInt; opt_req "upon_completion" TInt;
    opt_req "payment_method" TStr;
    opt "travel_expenses" (TDecimal 2);
    opt "accommodation_expenses" (TDecimal 2);
    opt "other_expenses" (TDecimal 2) ].

Definition EventPydantic (today : date) : model :=
  [ opt "id" TInt; opt "created_at" TDateTime; req "name" TStr;
    req "contract_id" TInt; req "profile_offeror_id" TInt;
    req "profile_offeree_id" TInt;
    opt "contact_person" TStr; opt "contact_phone" TStr;
    checked (req "date" TDate) (validate_future_date today);
    checked (req "duration" TDelta) validate_duration;
    checked (req "start" TTime) validate_time_range;
    req "end" TTime;
    checked (opt "arrive" TDateTime) validate_time_range;
    checked (opt "stage_set" TTime) validate_time_range;
    checked (opt "stage_check" TTime) validate_time_range;
    checked (opt "catering_open" TTime) validate_time_range;
    checked (opt "catering_close" TTime) validate_time_range;
    checked (opt "meal_time" TTime) validate_time_range;
    req "meal_location_name" TStr; req "meal_location_address" TStr;
    opt "accommodation_id" TInt ].

Definition EventUpdatePydantic (today : date) : model :=
  [ opt_req "name" TStr; opt_req "contract_id" TInt;
    opt_req "profile_offeror_id" TInt; opt_req "profile_offeree_id" TInt;
    opt "contact_person" TStr; opt "contact_phone" TStr;
    checked (opt_req "date" TDate) (validate_future_date today);
    checked (opt_req "duration" TDelta) validate_duration;
    checked (opt_req "start" TTime) validate_time_range;
    opt_req "end" TTime;
    checked (opt "arrive" TDateTime) validate_time_range;
    checked (opt "stage_set" TTime) validate_time_range;
    checked (opt "stage_check" TTime) validate_time_range;
    checked (opt "catering_open" TTime) validate_time_range;
    checked (opt "catering_close" TTime) validate_time_range;
    checked (opt "meal_time" TTime) validate_time_range;
    opt_req "meal_location_name" TStr; opt_req "meal_location_address" TStr;
    opt "accommodation_id" TInt ].

Definition AccommodationPydantic : model :=
  [ opt "id" TInt; req "name" TStr; req "contact_person" TStr;
    req "address" TStr;
    checked (req "telephone_number" TStr) validate_phone_number;
    opt "email" TEmail; opt "website" TUrl; opt "url" TUrl;
    opt "check_in" TDateTime; opt "check_out" TDateTime ].

(** [main.py] names an AccommodationUpdatePydantic that
    [pydantic_models.py] does not declare. *)
Variable AccommodationUpdatePydantic : model.

(** ** Outcomes of an operation *)

Inductive failure :=
| VALIDATION_ERROR (fields : list string)
| NOT_FOUND
| FORBIDDEN (reason : string)
| CONFLICT
| UNAVAILABLE
| Unhandled (e : exn).              (* an exception nobody translates *)

Inductive outcome (A : Type) :=
| Success (a : A)
| Failure (f : failure).
#[global] Arguments Success {A} a.
#[global] Arguments Failure {A} f.

Definition outcome_map {A B : Type} (g : A -> B) (o : outcome A) : outcome B :=
  match o with
  | Success a => Success (g a)
  | Failure f => Failure f
  end.

(** An operation against the store: the session is threaded through. *)
Definition api (DB A : Type) : Type := DB -> outcome A * DB.

Definition api_ret {DB A : Type} (a : A) : api DB A := fun db => (Success a, db).

Definition api_fail {DB A : Type} (f : failure) : api DB A := fun db => (Failure f, db).

Definition api_bind {DB A B : Type} (m : api DB A) (k : A -> api DB B) : api DB B :=
  fun db =>
    match m db with
    | (Success a, db') => k a db'
    | (Failure f, db') => (Failure f, db')
    end.

Notation "'let*' x := m 'in' k" := (api_bind m (fun x => k))
  (at level 10, x name, m at level 100, k at level 200).

Definition api_map {DB A B : Type} (g : A -> B) (m : api DB A) : api DB B :=
  fun db => let (o, db') := m db in (outcome_map g o, db').

(** ** The data manager interface ([data_manager_interface.py]) *)

(** The authenticated user that [get_common_dependencies] hands to a
    route (UserAuthPydantic). *)
Record UserAuthPydantic := CurrentUser {
  auth_id : Z;
  auth_username : pystr;
  auth_password : pystr;
  auth_is_active : bool
}.

(** One method per abstract method; [get_contract_events] is called by
    [main.py] on the data manager although the interface file does not
    list it. No accommodation method takes an actor. *)
Record DataManagerInterface (DB : Type) := {
  create_user : model_instance -> api DB Z;
  get_user_by_id : Z -> api DB row;
  soft_delete_user : pyval -> Z -> api DB row;
  update_user : model_instance -> Z -> api DB row;
  delete_user : Z -> api DB bool;
  get_user_profiles : Z -> api DB (list Z);
  create_profile : model_instance -> Z -> api DB Z;
  get_profile_by_id : Z -> api DB row;
  update_profile : Z -> model_instance -> Z -> api DB row;
  delete_profile : Z -> Z -> api DB bool;
  create_contract : model_instance -> UserAuthPydantic -> api DB Z;
  get_contract_by_id : Z -> Z -> api DB row;
  update_contract : Z -> model_instance -> Z -> api DB row;
  disable_contract : Z -> pyval -> Z -> api DB row;
  get_contract_events : Z -> Z -> api DB (list Z);
  create_event : model_instance -> UserAuthPydantic -> api DB Z;
  get_event_by_id : Z -> Z -> api DB row;
  update_event : Z -> model_instance -> Z -> api DB row;
  delete_event : Z -> Z -> api DB bool;
  create_accommodation : model_instance -> api DB Z;
  get_accommodation_by_id : Z -> api DB row;
  update_accommodation : Z -> model_instance -> api DB row;
  delete_accommodation : Z -> api DB bool
}.

(** ** The routes ([main.py]) *)

Inductive response :=
| RNewId (key : string) (n : Z)                    (* {"profile_id": 7} *)
| RRow (r : row)                                   (* an entity or a confirmation *)
| RContract (r : row) (event_ids : list Z)
| RMessage (msg : string).

(** The framework validates the body against the parameter's model
    before the route body runs. *)
Definition with_body {DB A : Type} (m : model) (payload : row)
    (k : model_instance -> api DB A) : api DB A :=
  match validate_model m payload with
  | Valid inst => k inst
  | Invalid errs => api_fail (VALIDATION_ERROR errs)
  | Raised e => api_fail (Unhandled e)
  end.

(** [response_model=m]: the returned object is validated against [m] and
    dumped with exactly the fields of [m]. *)
Definition with_response_model {DB : Type} (m : model) (r : row) : api DB response :=
  match validate_model m r with
  | Valid inst => api_ret (RRow (model_dump inst))
  | Invalid errs => api_fail (Unhandled (ValueError "ResponseValidationError"))
  | Raised e => api_fail (Unhandled e)
  end.

Section Routes.
Context {DB : Type} (data_manager : DataManagerInterface DB).

(** [common_dependencies]: (current_user, db, data_manager); the session
    is the state the route runs on. *)
Definition route_sign_up (user_data : row) : api DB response :=
  with_body UserCreatePydantic user_data (fun user_data =>
    let* user_id := create_user DB data_manager user_data in
    api_ret (RNewId "user_id" user_id)).

Definition route_get_user_me (current_user : UserAuthPydantic) : api DB response :=
  let* user := get_user_by_id DB data_manager (auth_id current_user) in
  with_response_model UserNoPwdPydantic user.

Definition route_update_user (user_data_to_update : row)
    (current_user : UserAuthPydantic) : api DB response :=
  with_body UserUpdatePydantic user_data_to_update (fun user_data_to_update =>
    let* updated_user_data :=
      update_user DB data_manager user_data_to_update (auth_id current_user) in
    api_ret (RRow updated_user_data)).

(** [deactivation_date: Optional[datetime] = None] is a query parameter. *)
Definition route_soft_delete_user (current_user : UserAuthPydantic)
    (deactivation_date : pyval) : api DB response :=
  match deactivation_date with
  | VNone | VDateTime _ _ =>
      let* response :=
        soft_delete_user DB data_manager deactivation_date (auth_id current_user) in
      api_ret (RRow response)
  | _ => api_fail (VALIDATION_ERROR ["deactivation_date"])
  end.

Definition route_create_profile (profile_data : row)
    (current_user : UserAuthPydantic) : api DB response :=
  with_body ProfilePydantic profile_data (fun profile_data =>
    let* id_profile :=
      create_profile DB data_manager profile_data (auth_id current_user) in
    api_ret (RNewId "profile_id" id_profile)).

Definition route_get_profile (profile_id : Z) : api DB response :=
  let* profile_dict := get_profile_by_id DB data_manager profile_id in
  api_ret (RRow profile_dict).

(** The body of [update_profile] is declared with ProfilePydantic. *)
Definition route_update_profile (profile_id : Z) (profile_data : row)
    (current_user : UserAuthPydantic) : api DB response :=
  with_body ProfilePydantic profile_data (fun profile_data =>
    let* updated_profile_data :=
      update_profile DB data_manager profile_id profile_data (auth_id current_user) in
    api_ret (RRow updated_profile_data)).

Definition route_delete_profile (profile_id : Z)
    (current_user : UserAuthPydantic) : api DB response :=
  let* _ := delete_profile DB data_manager profile_id (auth_id current_user) in
  api_ret (RMessage "Profile deleted successfully").

Definition route_create_contract (contract_data : row)
    (current_user : UserAuthPydantic) : api DB response :=
  with_body ContractPydantic contract_data (fun contract_data =>
    let* id_contract := create_contract DB data_manager contract_data current_user in
    api_ret (RNewId "contract_id" id_contract)).

Definition route_get_contract (contract_id : Z)
    (current_user : UserAuthPydantic) : api DB response :=
  let* contract_dict :=
    get_contract_by_id DB data_manager contract_id (auth_id current_user) in
  let* events_in_contract :=
    get_contract_events DB data_manager contract_id (auth_id current_user) in
  api_ret (RContract contract_dict events_in_contract).

Definition route_update_contract (contract_id : Z) (contract_data : row)
    (current_user : UserAuthPydantic) : api DB response :=
  with_body ContractUpdatePydantic contract_data (fun contract_data =>
    let* update_contract_data :=
      update_contract DB data_manager contract_id contract_data (auth_id current_user) in
    api_ret (RRow update_contract_data)).

(** [disable_at] is a query parameter without annotation or default:
    it is required, and any value is passed on. *)
Definition route_disable_contract (contract_id : Z)
    (current_user : UserAuthPydantic) (disable_at : pyval) : api DB response :=
  match disable_at with
  | VNone => api_fail (VALIDATION_ERROR ["disable_at"])
  | _ =>
      let* response :=
        disable_contract DB data_manager contract_id disable_at (auth_id current_user) in
      api_ret (RRow response)
  end.

Definition route_create_event (today : date) (event_data : row)
    (current_user : UserAuthPydantic) : api DB response :=
  with_body (EventPydantic today) event_data (fun event_data =>
    let* id_event := create_event DB data_manager event_data current_user in
    api_ret (RNewId "event_id" id_event)).

Definition route_get_event (event_id : Z)
    (current_user : UserAuthPydantic) : api DB response :=
  let* event_data := get_event_by_id DB data_manager event_id (auth_id current_user) in
  api_ret (RRow event_data).

Definition route_update_event (today : date) (event_id : Z)
    (event_data_to_update : row) (current_user : UserAuthPydantic)
    : api DB response :=
  with_body (EventUpdatePydantic today) event_data_to_update (fun event_data_to_update =>
    let* updated_event_data :=
      update_event DB data_manager event_id event_data_to_update (auth_id current_user) in
    api_ret (RRow updated_event_data)).

Definition route_delete_event (event_id : Z)
    (current_user : UserAuthPydantic) : api DB response :=
  let* _ := delete_event DB data_manager event_id (auth_id current_user) in
  api_ret (RMessage "Event deleted successfully").

Definition route_create_accommodation (accommodation_data : row) : api DB response :=
  with_body AccommodationPydantic accommodation_data (fun accommodation_data =>
    let* id_accommodation := create_accommodation DB data_manager accommodation_data in
    api_ret (RNewId "accommodation_id" id_accommodation)).

Definition route_get_accommodation (accommodation_id : Z)
    (current_user : UserAuthPydantic) : api DB response :=
  let* accommodation_data :=
    get_accommodation_by_id DB data_manager accommodation_id in
  api_ret (RRow accommodation_data).

Definition route_update_accommodation (accommodation_id : Z)
    (accommodation_data : row) (current_user : UserAuthPydantic)
    : api DB response :=
  with_body AccommodationUpdatePydantic accommodation_data (fun accommodation_data =>
    let* updated_accommodation_data :=
      update_accommodation DB data_manager accommodation_id accommodation_data in
    api_ret (RRow updated_accommodation_data)).

Definition route_delete_accommodation (accommodation_id : Z)
    (current_user : UserAuthPydantic) : api DB response :=
  let* _ := delete_accommodation DB data_manager accommodation_id in
  api_ret (RMessage "Accommodation deleted successfully").

End Routes.

(** ** The entity store and the lifecycle manager *)

Inductive kind := User | Profile | Contract | Event | Accommodation.

Inductive operation := Create | Read | Update | Delete.

Inductive decision := ALLOW | DENY (reason : string).

(** Modelled from the spec: the store behind the data manager
    ([datamanager/database.py] and the table classes are not under
    src/): one table of rows per entity kind, keyed by identifier. *)
Record db := Store {
  users : gmap Z row;
  profiles : gmap Z row;
  contracts : gmap Z row;
  events : gmap Z row;
  accommodations : gmap Z row
}.

Definition table (k : kind) (s : db) : gmap Z row :=
  match k with
  | User => users s
  | Profile => profiles s
  | Contract => contracts s
  | Event => events s
  | Accommodation => accommodations s
  end.

Definition set_table (k : kind) (t : gmap Z row) (s : db) : db :=
  match k with
  | User => Store t (profiles s) (contracts s) (events s) (accommodations s)
  | Profile => Store (users s) t (contracts s) (events s) (accommodations s)
  | Contract => Store (users s) (profiles s) t (events s) (accommodations s)
  | Event => Store (users s) (profiles s) (contracts s) t (accommodations s)
  | Accommodation => Store (users s) (profiles s) (contracts s) (events s) t
  end.

Definition int_col (c : string) (r : row) : option Z :=
  match r !! c with
  | Some (VInt n) => Some n
  | _ => None
  end.

Definition owner_user_id (r : row) : option Z := int_col "owner_user_id" r.

Definition owns (actor : Z) (r : row) : bool :=
  bool_decide (owner_user_id r = Some actor).

Definition is_disabled (r : row) : bool :=
  match r !! "disabled" with
  | Some (VBool true) => true
  | _ => false
  end.

(** The contract's parties: the creating user. *)
Definition party (s : db) (actor contract_id : Z) : bool :=
  match contracts s !! contract_id with
  | Some c => owns actor c
  | None => false
  end.

(** Modelled from the spec: the Ownership & Authorization Engine, whose
    code ([data_manager_SQLAlchemy.py]) is not under src/. A pure
    predicate on (actor, kind, instance, operation); a disabled contract
    admits no update. *)
Definition authorize (s : db) (actor : Z) (k : kind) (id : Z) (inst : row)
    (op : operation) : decision :=
  match k with
  | User =>
      if bool_decide (actor = id) then ALLOW else DENY "not the user"
  | Profile =>
      match op with
      | Create | Read => ALLOW
      | Update | Delete =>
          if owns actor inst then ALLOW else DENY "not the owner"
      end
  | Contract =>
      match op with
      | Create => ALLOW
      | Read | Delete =>
          if owns actor inst then ALLOW else DENY "not a party to the contract"
      | Update =>
          if owns actor inst then
            if is_disabled inst then DENY "the contract is disabled" else ALLOW
          else DENY "not a party to the contract"
      end
  | Event =>
      match int_col "contract_id" inst with
      | Some contract_id =>
          if party s actor contract_id then ALLOW
          else DENY "not a party to the contract"
      | None => DENY "no contract"
      end
  | Accommodation => ALLOW
  end.

(** Modelled from the spec: the steps of the common protocol of the
    Entity Lifecycle Manager ([data_manager_SQLAlchemy.py] is not under
    src/): fetch by id or NOT_FOUND, consult the engine or FORBIDDEN,
    persist, remove, assign a new identifier. *)
Definition fetch (k : kind) (id : Z) : api db row :=
  fun s =>
    match table k s !! id with
    | Some r => (Success r, s)
    | None => (Failure NOT_FOUND, s)
    end.

Definition consult (actor : Z) (k : kind) (id : Z) (inst : row) (op : operation)
    : api db unit :=
  fun s =>
    match authorize s actor k id inst op with
    | ALLOW => (Success tt, s)
    | DENY reason => (Failure (FORBIDDEN reason), s)
    end.

Definition persist (k : kind) (id : Z) (r : row) : api db unit :=
  fun s => (Success tt, set_table k (<[id := r]> (table k s)) s).

Definition remove (k : kind) (id : Z) : api db unit :=
  fun s => (Success tt, set_table k (delete id (table k s)) s).

Definition new_id (k : kind) : api db Z :=
  fun s => (Success (fresh (dom (table k s))), s).

(** A referenced row must be live. *)
Definition live (k : kind) (id : Z) : api db unit :=
  let* _ := fetch k id in api_ret tt.

Definition live_ref (k : kind) (c : string) (r : row) : api db unit :=
  match r !! c with
  | Some (VInt id) => live k id
  | Some VNone | None => api_ret tt
  | Some _ => api_fail NOT_FOUND
  end.

(** Modelled from the spec: the partial update of the lifecycle
    manager ([data_manager_SQLAlchemy.py] is not under src/): "merge
    only the fields present in the update payload into the stored
    instance"; the supplied fields overwrite, every other column stays. *)
Definition merge (inst : row) (data : model_instance) : row :=
  model_dump_exclude_unset data ∪ inst.

(** Modelled from the spec: create, read, update and delete of the
    Entity Lifecycle Manager ([data_manager_SQLAlchemy.py] is not under
    src/), after the body has been validated. *)
Definition create_entity (k : kind) (actor : Z) (stamp : Z -> row -> row)
    (data : model_instance) : api db Z :=
  let* id := new_id k in
  let inst := stamp id (model_dump data) in
  let* _ := consult actor k id inst Create in
  let* _ := persist k id inst in
  api_ret id.

Definition read_entity (k : kind) (actor id : Z) : api db row :=
  let* inst := fetch k id in
  let* _ := consult actor k id inst Read in
  api_ret inst.

Definition update_entity (k : kind) (actor id : Z) (data : model_instance)
    : api db row :=
  let* inst := fetch k id in
  let* _ := consult actor k id inst Update in
  let updated := merge inst data in
  let* _ := persist k id updated in
  api_ret updated.

Definition delete_entity (k : kind) (actor id : Z) : api db bool :=
  let* inst := fetch k id in
  let* _ := consult actor k id inst Delete in
  let* _ := remove k id in
  api_ret true.

(** Modelled from the spec: soft delete and disable stamp the row with
    the timestamp "provided or now" and answer with
    {id, name, effective timestamp} ([data_manager_SQLAlchemy.py] is not
    under src/). *)
Definition effective (now : date * time) (at_ : pyval) : pyval :=
  match at_ with
  | VNone => VDateTime (fst now) (snd now)
  | _ => at_
  end.

Definition confirmation (id : Z) (inst : row) (c : string) (at_ : pyval) : row :=
  {[ "id" := VInt id;
     "name" := default VNone (inst !! "name");
     c := at_ ]}.

Definition stamp_id (id : Z) (r : row) : row := <["id" := VInt id]> r.

Definition stamp_owner (actor id : Z) (r : row) : row :=
  <["owner_user_id" := VInt actor]> (stamp_id id r).

(** The credential hash belongs to the identity collaborator. *)
Variable hash_password : pyval -> pyval.

Definition stamp_user (id : Z) (r : row) : row :=
  <["hashed_password" := hash_password (default VNone (r !! "password"))]>
    (delete "password" (stamp_id id r)).

(** Creation always enters the active state. *)
Definition stamp_contract (actor id : Z) (r : row) : row :=
  <["disabled" := VBool false]> (<["disabled_at" := VNone]> (stamp_owner actor id r)).

Definition username_taken (s : db) (data : model_instance) : bool :=
  bool_decide (Exists (fun u : row => u !! "username" = values data !! "username")
                      (map_to_list (users s)).*2).

Definition ids_where (P : row -> bool) (t : gmap Z row) : list Z :=
  (map_to_list (filter (fun kv => P kv.2 = true) t)).*1.

(** Modelled from the spec: SQLAlchemyDataManager, the implementation
    of the interface ([data_manager_SQLAlchemy.py] is not under src/),
    after sections 4.1 and 4.2 of the specification. [now] is the clock
    reading of the call. *)
Definition SpecDataManager (now : date * time) : DataManagerInterface db := {|
  create_user data := fun s =>
    if username_taken s data then (Failure CONFLICT, s)
    else (let* id := new_id User in
          let* _ := persist User id (stamp_user id (model_dump data)) in
          api_ret id) s;
  get_user_by_id user_id := read_entity User user_id user_id;
  soft_delete_user deactivation_date user_id :=
    let* inst := fetch User user_id in
    let* _ := consult user_id User user_id inst Delete in
    let at_ := effective now deactivation_date in
    let* _ := persist User user_id (<["deactivation_date" := at_]> inst) in
    api_ret (confirmation user_id inst "deactivation_date" at_);
  update_user data current_user_id :=
    update_entity User current_user_id current_user_id data;
  delete_user user_id :=
    let* _ := fetch User user_id in
    let* _ := remove User user_id in
    api_ret true;
  get_user_profiles user_id := fun s =>
    (Success (ids_where (owns user_id) (profiles s)), s);
  create_profile data current_user_id :=
    create_entity Profile current_user_id (stamp_owner current_user_id) data;
  get_profile_by_id profile_id :=
    let* inst := fetch Profile profile_id in api_ret inst;
  update_profile profile_id data current_user_id :=
    update_entity Profile current_user_id profile_id data;
  delete_profile profile_id current_user_id :=
    delete_entity Profile current_user_id profile_id;
  create_contract data current_user :=
    let* _ := live_ref Profile "offeree_id" (model_dump data) in
    create_entity Contract (auth_id current_user)
      (stamp_contract (auth_id current_user)) data;
  get_contract_by_id contract_id current_user_id :=
    read_entity Contract current_user_id contract_id;
  update_contract contract_id data current_user_id :=
    update_entity Contract current_user_id contract_id data;
  disable_contract contract_id disabled_at current_user_id :=
    let* inst := fetch Contract contract_id in
    let* _ := consult current_user_id Contract contract_id inst Delete in
    let at_ := effective now disabled_at in
    let* _ := persist Contract contract_id
                (<["disabled" := VBool true]> (<["disabled_at" := at_]> inst)) in
    api_ret (confirmation contract_id inst "disabled_at" at_);
  get_contract_events contract_id current_user_id :=
    let* _ := read_entity Contract current_user_id contract_id in
    fun s => (Success (ids_where
                (fun e => bool_decide (int_col "contract_id" e = Some contract_id))
                (events s)), s);
  create_event data current_user :=
    let r := model_dump data in
    let* _ := live_ref Contract "contract_id" r in
    let* _ := live_ref Profile "profile_offeror_id" r in
    let* _ := live_ref Profile "profile_offeree_id" r in
    let* _ := live_ref Accommodation "accommodation_id" r in
    create_entity Event (auth_id current_user) stamp_id data;
  get_event_by_id event_id current_user_id :=
    read_entity Event current_user_id event_id;
  update_event event_id data current_user_id :=
    update_entity Event current_user_id event_id data;
  delete_event event_id current_user_id :=
    delete_entity Event current_user_id event_id;
  create_accommodation data := fun s =>
    (let* id := new_id Accommodation in
     let* _ := persist Accommodation id (stamp_id id (model_dump data)) in
     api_ret id) s;
  get_accommodation_by_id accommodation_id := fetch Accommodation accommodation_id;
  update_accommodation accommodation_id data := fun s =>
    (let* inst := fetch Accommodation accommodation_id in
     let updated := merge inst data in
     let* _ := persist Accommodation accommodation_id updated in
     api_ret updated) s;
  delete_accommodation accommodation_id := fun s =>
    (let* _ := fetch Accommodation accommodation_id in
     let* _ := remove Accommodation accommodation_id in
     api_ret true) s
|}.

(** ** The public surface as one step function *)

(** The body model of each update route. The profile route takes the
    creation model. *)
Definition update_model (today : date) (k : kind) : model :=
  match k with
  | User => UserUpdatePydantic
  | Profile => ProfilePydantic
  | Contract => ContractUpdatePydantic
  | Event => EventUpdatePydantic today
  | Accommodation => AccommodationUpdatePydantic
  end.

(** The update route of each kind; a user updates the own record. *)
Definition route_update {DB : Type} (dm : DataManagerInterface DB)
    (today : date) (k : kind) (id : Z) (payload : row)
    (current_user : UserAuthPydantic) : api DB response :=
  match k with
  | User => route_update_user dm payload current_user
  | Profile => route_update_profile dm id payload current_user
  | Contract => route_update_contract dm id payload current_user
  | Event => route_update_event dm today id payload current_user
  | Accommodation => route_update_accommodation dm id payload current_user
  end.

Definition update_target (k : kind) (id : Z) (current_user : UserAuthPydantic) : Z :=
  match k with
  | User => auth_id current_user
  | _ => id
  end.

(** Every route of [main.py] that touches the store. *)
Inductive request :=
| SignUp (user_data : row)
| GetUserMe
| UpdateUser (user_data_to_update : row)
| SoftDeleteUser (deactivation_date : pyval)
| CreateProfile (profile_data : row)
| GetProfile (profile_id : Z)
| UpdateProfile (profile_id : Z) (profile_data : row)
| DeleteProfile (profile_id : Z)
| CreateContract (contract_data : row)
| GetContract (contract_id : Z)
| UpdateContract (contract_id : Z) (contract_data : row)
| DisableContract (contract_id : Z) (disable_at : pyval)
| CreateEvent (event_data : row)
| GetEvent (event_id : Z)
| UpdateEvent (event_id : Z) (event_data_to_update : row)
| DeleteEvent (event_id : Z)
| CreateAccommodation (accommodation_data : row)
| GetAccommodation (accommodation_id : Z)
| UpdateAccommodation (accommodation_id : Z) (accommodation_data : row)
| DeleteAccommodation (accommodation_id : Z).

(** A call: the clock reading, the authenticated caller, the request. *)
Record call := Call {
  clock : date * time;
  caller : UserAuthPydantic;
  what : request
}.

Definition handle (c : call) : api db response :=
  let dm := SpecDataManager (clock c) in
  let today := fst (clock c) in
  let u := caller c in
  match what c with
  | SignUp d => route_sign_up dm d
  | GetUserMe => route_get_user_me dm u
  | UpdateUser d => route_update_user dm d u
  | SoftDeleteUser at_ => route_soft_delete_user dm u at_
  | CreateProfile d => route_create_profile dm d u
  | GetProfile id => route_get_profile dm id
  | UpdateProfile id d => route_update_profile dm id d u
  | DeleteProfile id => route_delete_profile dm id u
  | CreateContract d => route_create_contract dm d u
  | GetContract id => route_get_contract dm id u
  | UpdateContract id d => route_update_contract dm id d u
  | DisableContract id at_ => route_disable_contract dm id u at_
  | CreateEvent d => route_create_event dm today d u
  | GetEvent id => route_get_event dm id u
  | UpdateEvent id d => route_update_event dm today id d u
  | DeleteEvent id => route_delete_event dm id u
  | CreateAccommodation d => route_create_accommodation dm d
  | GetAccommodation id => route_get_accommodation dm id u
  | UpdateAccommodation id d => route_update_accommodation dm id d u
  | DeleteAccommodation id => route_delete_accommodation dm id u
  end.

(** The store after a sequence of calls. *)
Definition run (calls : list call) (s : db) : db :=
  fold_left (fun s c => snd (handle c s)) calls s.

(** The disabled state of a contract: the flag is set and the timestamp
    is there. *)
Definition disabled_contract (s : db) (contract_id : Z) : Prop :=
  exists c at_,
    contracts s !! contract_id = Some c
    /\ c !! "disabled" = Some (VBool true)
    /\ c !! "disabled_at" = Some at_
    /\ at_ <> VNone.

(** The body that undoes a soft deletion. *)
Definition reactivation : row :=
  {[ "is_active" := VBool true; "deactivation_date" := VNone ]}.

(** ** Notions the properties are stated with *)

(** The regular expression after the optional sign. *)
Definition phone_body (s : pystr) : bool :=
  match s with
  | d :: rest =>
      is_digit d && negb (bool_decide (rest = [])) && forallb class_char rest
  | [] => false
  end.

Definition names (m : model) : list string := f_name <$> m.

(** A field the payload gets wrong: missing although required, of the
    wrong type, or refused by a validator with ValueError. *)
Definition field_fails (f : field) (payload : row) : Prop :=
  match payload !! f_name f with
  | None => f_default f = None
  | Some v =>
      type_ok f v = false
      \/ exists msg, run_validators (f_validators f) v = Raise (ValueError msg)
  end.

(** A field the payload gets right: supplied with a value of the type
    that the validators hand on, or left out where there is a default. *)
Definition field_ok (f : field) (payload : row) : Prop :=
  match payload !! f_name f with
  | None => is_Some (f_default f)
  | Some v =>
      type_ok f v = true
      /\ exists v', run_validators (f_validators f) v = Ret v'
  end.

(** A field on whose value a validator raises something that is not a
    ValueError. *)
Definition field_escapes (f : field) (payload : row) : Prop :=
  exists v e,
    payload !! f_name f = Some v /\ type_ok f v = true
    /\ run_validators (f_validators f) v = Raise e
    /\ forall msg, e <> ValueError msg.

(** What a valid object holds for a field. *)
Definition field_value (f : field) (payload : row) (o : option pyval) : Prop :=
  match payload !! f_name f with
  | None => exists d, f_default f = Some d /\ o = Some d
  | Some v =>
      type_ok f v = true
      /\ exists v', run_validators (f_validators f) v = Ret v' /\ o = Some v'
  end.

(** Every validator hands back the object it was given. *)
Definition pure_validators (m : model) : Prop :=
  forall f v v', f ∈ m -> run_validators (f_validators f) v = Ret v' -> v' = v.

(** "[b] is [a] or later". *)
Definition date_le (a b : date) : Prop := a = b \/ date_lt a b = true.

Definition optional_times : list string :=
  ["arrive"; "stage_set"; "stage_check"; "catering_open"; "catering_close";
   "meal_time"].

Definition user_projection : list string :=
  ["id"; "username"; "type_of_entity"; "name"; "surname"; "email_address";
   "phone_number"; "vat_id"; "bank_account"; "is_active";
   "deactivation_date"; "delete_at"].

(** What one call can do to the table of contracts: nothing, add a row
    under a new identifier, merge an accepted update body into a row
    that is not disabled, or stamp a row as disabled. *)
Inductive contracts_step (t t' : gmap Z row) : Prop :=
| step_same : t' = t -> contracts_step t t'
| step_create (id : Z) (r : row) :
    t !! id = None -> t' = <[id := r]> t -> contracts_step t t'
| step_update (id : Z) (r : row) (data : model_instance) (payload : row) :
    t !! id = Some r -> is_disabled r = false ->
    validate_model ContractUpdatePydantic payload = Valid data ->
    t' = <[id := merge r data]> t -> contracts_step t t'
| step_disable (id : Z) (r : row) (at_ : pyval) :
    t !! id = Some r -> at_ <> VNone ->
    t' = <[id := <["disabled" := VBool true]> (<["disabled_at" := at_]> r)]> t ->
    contracts_step t t'.

(** ** Sample data for the worked examples *)

Definition any_format (_ : pystr) : bool := true.

Definition sample_hash (_ : pyval) : pyval := VStr (str "$2b$12$hash").

Definition sample_clock : date * time := (Date 2026 11 3, Time 10 0 0).

Definition alice : UserAuthPydantic := CurrentUser 1 (str "alice") (str "$2b$12$hash") true.

Definition bob : UserAuthPydantic := CurrentUser 2 (str "bob") (str "$2b$12$hash") true.

(** A user who soft-deleted the account on 2026-10-01. *)
Definition alice_row : row :=
  {[ "id" := VInt 1;
     "username" := VStr (str "alice");
     "hashed_password" := VStr (str "$2b$12$hash");
     "type_of_entity" := VStr (str "performer");
     "name" := VStr (str "Alice");
     "surname" := VStr (str "Doe");
     "email_address" := VStr (str "alice@example.org");
     "phone_number" := VStr (str "+49 30-1234");
     "is_active" := VBool true;
     "deactivation_date" := VDateTime (Date 2026 10 1) (Time 9 0 0) ]}.

Definition profile_body : row :=
  {[ "name" := VStr (str "The Band");
     "performance_type" := VStr (str "music");
     "description" := VStr (str "a band");
     "bio" := VStr (str "since 2020");
     "social_media" := VList [];
     "photos" := VList [];
     "videos" := VList [];
     "audios" := VList [];
     "online_press" := VList [] ]}.

Definition profile_body_name_only : row := {[ "name" := VStr (str "New name") ]}.

Definition profile_body_null_name : row := <["name" := VNone]> profile_body.

(** Alice's profile, identifier 0. *)
Definition band_profile : row :=
  <["id" := VInt 0]> (<["owner_user_id" := VInt 1]> profile_body).

Definition contract_body (code : string) : row :=
  {[ "name" := VStr (str "Gig");
     "offeree_id" := VInt 0;
     "total_fee" := VDecimal 100000 2;
     "currency_code" := VStr (str code);
     "upon_signing" := VInt 50;
     "upon_completion" := VInt 50;
     "payment_method" := VStr (str "transfer") ]}.

(** Alice's contracts: 0 is active, 1 has been disabled. *)
Definition gig_contract : row :=
  <["id" := VInt 0]> (<["owner_user_id" := VInt 1]>
    (<["disabled" := VBool false]> (<["disabled_at" := VNone]> (contract_body "USD")))).

Definition cancelled_contract : row :=
  <["id" := VInt 1]> (<["owner_user_id" := VInt 1]>
    (<["disabled" := VBool true]>
      (<["disabled_at" := VDateTime (Date 2026 10 20) (Time 12 0 0)]>
        (contract_body "EUR")))).

Definition sample_store : db :=
  Store {[ 1 := alice_row ]} {[ 0 := band_profile ]}
        {[ 0 := gig_contract; 1 := cancelled_contract ]} ∅ ∅.

Definition event_body (d : date) : row :=
  {[ "name" := VStr (str "Concert");
     "contract_id" := VInt 0;
     "profile_offeror_id" := VInt 0;
     "profile_offeree_id" := VInt 0;
     "date" := VDate d;
     "duration" := VDelta 5400;
     "start" := VTime (Time 20 0 0);
     "end" := VTime (Time 21 30 0);
     "meal_location_name" := VStr (str "Canteen");
     "meal_location_address" := VStr (str "Main street 1") ]}.

(** A store in which Alice's row has lost its is_active column. *)
Definition incomplete_store : db :=
  Store {[ 1 := delete "is_active" alice_row ]} ∅ ∅ ∅ ∅.

(** A stand-in for the declaration of AccommodationUpdatePydantic that
    the source lacks, used in worked examples only. *)
Definition sample_accommodation_update : model :=
  [ opt "name" TStr; opt "contact_person" TStr; opt "address" TStr;
    opt "telephone_number" TStr; opt "email" TEmail; opt "website" TUrl;
    opt "url" TUrl; opt "check_in" TDateTime; opt "check_out" TDateTime ].

(** The fields of UserNoPwdPydantic without a default. *)
Definition user_required : list string :=
  ["id"; "username"; "type_of_entity"; "name"; "surname"; "email_address";
   "phone_number"; "is_active"].

(** The fields of ContractUpdatePydantic without a default. *)
Definition contract_update_required : list string :=
  ["name"; "offeree_id"; "total_fee"; "currency_code"; "upon_signing";
   "upon_completion"; "payment_method"].

(** The hour and minute of a time are in range. *)
Definition in_day (t : time) : bool :=
  (0 <=? hour t) && (hour t <=? 23) && (0 <=? minute t) && (minute t <=? 59).

(** * Properties *)

(** ** Telephone numbers *)

Lemma in_cls_class_char (c : N) :
  in_cls [CDigit; CSpace; CLit dash] c = class_char c.
Proof.
  unfold in_cls, class_char; simpl.
  rewrite orb_false_r, orb_assoc. reflexivity.
Qed.

(** The repetition followed by [$]: one or more class characters up to
    the end. A final newline that [$] would skip is itself in [\s]. *)
Lemma plus_then_eol (s : pystr) :
  is_space newline = true ->
  match_here [Plus [CDigit; CSpace; CLit dash]; Eol] false s
  = negb (bool_decide (s = [])) && forallb class_char s.
Proof.
  intros Hnl. induction s as [|ch s IH]; [reflexivity|].
  cbn [match_here] in *. rewrite IH, in_cls_class_char. clear IH.
  assert (Hend : match_here [Eol] false s = at_end s) by apply andb_true_r.
  cbn [match_here] in Hend. rewrite Hend. clear Hend.
  destruct s as [|c [|c' s]].
  - reflexivity.
  - change (class_char ch && (class_char c && true || (c =? newline)%N)
            = class_char ch && (class_char c && true)).
    destruct (N.eqb_spec c newline) as [->|_].
    + assert (class_char newline = true) as ->
        by (unfold class_char; rewrite Hnl, orb_true_r; reflexivity).
      reflexivity.
    + rewrite orb_false_r. reflexivity.
  - change (at_end (c :: c' :: s)) with false. rewrite orb_false_r. reflexivity.
Qed.

Lemma match_here_bol (p : list item) (b : bool) (s : pystr) :
  match_here (Bol :: p) b s = b && match_here p b s.
Proof. reflexivity. Qed.

Lemma match_here_opt (c : cls) (p : list item) (b : bool) (s : pystr) :
  match_here (Opt c :: p) b s
  = match s with
    | ch :: s' => in_cls c ch && match_here p false s'
    | [] => false
    end || match_here p b s.
Proof. reflexivity. Qed.

Lemma match_digit_then_tail (b : bool) (t : pystr) :
  is_space newline = true ->
  match_here [One [CDigit]; Plus [CDigit; CSpace; CLit dash]; Eol] b t
  = phone_body t.
Proof.
  intros Hnl. destruct t as [|d t]; [reflexivity|].
  change (in_cls [CDigit] d
          && match_here [Plus [CDigit; CSpace; CLit dash]; Eol] false t
          = phone_body (d :: t)).
  rewrite plus_then_eol by assumption.
  unfold in_cls; cbn. rewrite orb_false_r, andb_assoc. reflexivity.
Qed.

Lemma re_match_phone_body (s : pystr) :
  is_space newline = true ->
  re_match phone_pattern s
  = match s with
    | ch :: s' => (ch =? plus_sign)%N && phone_body s'
    | [] => false
    end || phone_body s.
Proof.
  intros Hnl. unfold re_match, phone_pattern.
  rewrite match_here_bol, match_here_opt. cbn [andb].
  rewrite match_digit_then_tail by assumption.
  destruct s as [|ch s']; [reflexivity|].
  rewrite match_digit_then_tail by assumption.
  unfold in_cls; cbn [existsb in_atom]. rewrite orb_false_r. reflexivity.
Qed.

Lemma re_match_phone_spec (s : pystr) :
  is_digit plus_sign = false ->
  is_space newline = true ->
  re_match phone_pattern s = phone_shape s.
Proof.
  intros Hplus Hnl. rewrite re_match_phone_body by assumption.
  unfold phone_shape, strip_plus. fold (phone_body s).
  destruct s as [|ch s']; [reflexivity|].
  destruct (N.eqb_spec ch plus_sign) as [->|_].
  - fold (phone_body s'). cbn. rewrite Hplus. cbn. apply orb_false_r.
  - reflexivity.
Qed.

Lemma spec_phone_pattern_shape (s : pystr) :
  (forall c, ascii_digit c = true -> is_digit c = true) ->
  is_space space = true ->
  spec_phone_pattern s = true -> phone_shape s = true.
Proof.
  intros Hdigit Hspace. unfold spec_phone_pattern, phone_shape.
  destruct (strip_plus s) as [|d rest]; [done|].
  rewrite !andb_true_iff, !forallb_forall.
  intros [[Hd Hne] Hrest]. split; [split; [by apply Hdigit|done]|].
  intros c Hc. specialize (Hrest c Hc).
  unfold spec_tel_char in Hrest. unfold class_char.
  apply orb_true_iff in Hrest as [Hrest| ->]; [|apply orb_true_r].
  apply orb_true_iff in Hrest as [Hc'|Hc'].
  - by rewrite (Hdigit c Hc').
  - apply N.eqb_eq in Hc' as ->. by rewrite Hspace, orb_true_r.
Qed.

(** C7 (as amended). Telephone-number validation accepts exactly the
    strings made of an optional leading '+', a first character of the
    class [\d], and then one or more characters each of which is in
    [\d], in [\s] or a dash; it rejects every other string with
    "Invalid telephone number format". The class [\s] is all whitespace
    (newline included), not the space alone. Every string that fits the
    specification's wording (digits 0 to 9, the space U+0020, the dash)
    is among the accepted ones. *)
Theorem phone_validation_exact (s : pystr) :
  is_digit plus_sign = false ->
  is_space newline = true ->
  (forall c, ascii_digit c = true -> is_digit c = true) ->
  is_space space = true ->
  re_match phone_pattern s = phone_shape s
  /\ (phone_shape s = true -> validate_phone_number (VStr s) = Ret (VStr s))
  /\ (phone_shape s = false ->
      validate_phone_number (VStr s)
      = Raise (ValueError "Invalid telephone number format"))
  /\ (spec_phone_pattern s = true ->
      validate_phone_number (VStr s) = Ret (VStr s)).
Proof.
  intros Hplus Hnl Hdigit Hspace.
  pose proof (re_match_phone_spec s Hplus Hnl) as Heq.
  split; [exact Heq|].
  unfold validate_phone_number. rewrite Heq.
  split; [by intros ->|]. split; [by intros ->|].
  intros H. by rewrite (spec_phone_pattern_shape s Hdigit Hspace H).
Qed.

(** ** Model validation *)

Lemma validate_fields_errs (fs : list field) (payload : row)
    (inst : model_instance) (errs : list string) :
  errs <> [] ->
  match validate_fields fs payload inst errs with
  | Valid _ => False
  | Invalid es => forall e, e ∈ errs -> e ∈ es
  | Raised _ => True
  end.
Proof.
  revert inst errs. induction fs as [|f fs IH]; intros inst errs Hne; cbn.
  - destruct errs; [done|]. intros e He.
    by apply list_elem_of_In, (proj1 (in_rev _ _)), list_elem_of_In.
  - assert (Hcons : match validate_fields fs payload inst (f_name f :: errs) with
                    | Valid _ => False
                    | Invalid es => forall e, e ∈ errs -> e ∈ es
                    | Raised _ => True
                    end).
    { specialize (IH inst (f_name f :: errs) ltac:(done)).
      destruct (validate_fields fs payload inst (f_name f :: errs)); try done.
      intros e He. apply IH. by right. }
    destruct (payload !! f_name f) as [v|].
    + destruct (type_ok f v); [|exact Hcons].
      destruct (run_validators (f_validators f) v) as [v'|[msg| |]];
        [by apply IH|exact Hcons|exact I|exact I].
    + destruct (f_default f); [by apply IH|exact Hcons].
Qed.

Lemma field_rejected (f : field) (fs : list field) (payload : row)
    (inst : model_instance) (errs : list string) :
  f ∈ fs -> field_fails f payload ->
  match validate_fields fs payload inst errs with
  | Valid _ => False
  | Invalid es => f_name f ∈ es
  | Raised _ => True
  end.
Proof.
  intros Hin Hfail. revert inst errs.
  induction fs as [|f0 fs IH]; intros inst errs; [by apply elem_of_nil in Hin|].
  apply elem_of_cons in Hin as [<-|Hin].
  - assert (Hcons : match validate_fields fs payload inst (f_name f :: errs) with
                    | Valid _ => False
                    | Invalid es => f_name f ∈ es
                    | Raised _ => True
                    end).
    { pose proof (validate_fields_errs fs payload inst (f_name f :: errs)
                    ltac:(done)) as H.
      destruct (validate_fields fs payload inst (f_name f :: errs)); try done.
      apply H. by left. }
    cbn. unfold field_fails in Hfail.
    destruct (payload !! f_name f) as [v|].
    + destruct Hfail as [-> | [msg ->]]; [exact Hcons|].
      destruct (type_ok f v); exact Hcons.
    + rewrite Hfail. exact Hcons.
  - specialize (IH Hin). cbn.
    destruct (payload !! f_name f0) as [v|].
    + destruct (type_ok f0 v); [|apply IH].
      destruct (run_validators (f_validators f0) v) as [v'|[msg| |]];
        [apply IH|apply IH|exact I|exact I].
    + destruct (f_default f0); apply IH.
Qed.

(** An exception escapes validation only out of a validator, and then
    it is not a ValueError. *)
Lemma validate_fields_raised (fs : list field) (payload : row)
    (inst : model_instance) (errs : list string) (e : exn) :
  validate_fields fs payload inst errs = Raised e ->
  exists f v, f ∈ fs /\ payload !! f_name f = Some v /\ type_ok f v = true
    /\ run_validators (f_validators f) v = Raise e
    /\ forall msg, e <> ValueError msg.
Proof.
  revert inst errs. induction fs as [|f fs IH]; intros inst errs; cbn.
  - destruct errs; discriminate.
  - assert (Hrec : forall i es, validate_fields fs payload i es = Raised e ->
      exists f0 v, f0 ∈ f :: fs /\ payload !! f_name f0 = Some v
        /\ type_ok f0 v = true /\ run_validators (f_validators f0) v = Raise e
        /\ forall msg, e <> ValueError msg).
    { intros i es H. destruct (IH i es H) as (f0 & v & Hin & Hrest).
      exists f0, v. split; [by right|exact Hrest]. }
    destruct (payload !! f_name f) as [v|] eqn:Hp.
    + destruct (type_ok f v) eqn:Ht; [|apply Hrec].
      destruct (run_validators (f_validators f) v) as [v'|e'] eqn:Hv; [apply Hrec|].
      destruct e' as [msg| |]; [apply Hrec| |];
        intros [= <-]; exists f, v; (split; [by left|]); done.
    + destruct (f_default f); apply Hrec.
Qed.

(** What a valid object is made of. *)
Lemma validate_fields_valid (fs : list field) (payload : row)
    (inst i : model_instance) (errs : list string) :
  validate_fields fs payload inst errs = Valid i ->
  errs = []
  /\ (forall n, n ∉ names fs -> values i !! n = values inst !! n)
  /\ (forall n, n ∈ fields_set i <->
        n ∈ fields_set inst \/ (n ∈ names fs /\ is_Some (payload !! n)))
  /\ dom (values i) = dom (values inst) ∪ list_to_set (names fs)
  /\ (NoDup (names fs) -> forall f, f ∈ fs ->
        field_value f payload (values i !! f_name f)).
Proof.
  clear hash_password. revert inst errs. induction fs as [|f fs IH]; intros inst errs; cbn.
  - destruct errs; [|discriminate]. intros [= <-].
    split; [done|]. split; [done|]. split.
    { intros n. split; [by left|]. intros [H|[H _]]; [done|by apply elem_of_nil in H]. }
    split; [set_solver|]. intros _ f Hf. by apply elem_of_nil in Hf.
  - assert (Herr : validate_fields fs payload inst (f_name f :: errs) = Valid i -> False).
    { intros H.
      pose proof (validate_fields_errs fs payload inst (f_name f :: errs)
                    ltac:(done)) as H'.
      by rewrite H in H'. }
    assert (Hstep : forall v' (supplied : bool),
      validate_fields fs payload
        (if supplied then set_field (f_name f) v' inst
         else default_field (f_name f) v' inst) errs = Valid i ->
      (if supplied then is_Some (payload !! f_name f) else payload !! f_name f = None) ->
      errs = []
      /\ (forall n, n ∉ f_name f :: names fs -> values i !! n = values inst !! n)
      /\ (forall n, n ∈ fields_set i <->
            n ∈ fields_set inst \/ (n ∈ f_name f :: names fs /\ is_Some (payload !! n)))
      /\ dom (values i) = dom (values inst) ∪ ({[f_name f]} ∪ list_to_set (names fs))
      /\ (NoDup (f_name f :: names fs) -> values i !! f_name f = Some v'
          /\ forall f0, f0 ∈ fs -> field_value f0 payload (values i !! f_name f0))).
    { intros v' supplied H Hsup.
      apply IH in H as (-> & Hother & Hset & Hdom & Hval).
      split; [done|]. split.
      { intros n Hn. rewrite Hother by set_solver.
        destruct supplied; cbn; apply lookup_insert_ne; set_solver. }
      split.
      { intros n. rewrite Hset. destruct supplied; cbn.
        - rewrite elem_of_union, elem_of_singleton, elem_of_cons. naive_solver.
        - rewrite elem_of_cons. split; [naive_solver|].
          intros [H|[[->|H] H']]; [by left| |by right].
          rewrite Hsup in H'. by destruct H'. }
      split.
      { rewrite Hdom. destruct supplied; cbn; rewrite dom_insert_L; set_solver. }
      intros Hnd. apply NoDup_cons in Hnd as [Hnotin Hnd]. split.
      { rewrite Hother by done. destruct supplied; cbn; apply lookup_insert_eq. }
      by apply Hval. }
    destruct (payload !! f_name f) as [v|] eqn:Hp.
    + destruct (type_ok f v) eqn:Ht; [|intros H; by apply Herr in H].
      destruct (run_validators (f_validators f) v) as [v'|[msg| |]] eqn:Hv;
        [|intros H; by apply Herr in H|discriminate|discriminate].
      intros H. apply (Hstep v' true) in H as (-> & Hother & Hset & Hdom & Hval);
        [|done].
      split; [done|]. split; [done|]. split; [done|]. split; [done|].
      intros Hnd f0 Hf0. destruct (Hval Hnd) as [Hv0 Hrest].
      apply elem_of_cons in Hf0 as [->|Hf0]; [|by apply Hrest].
      unfold field_value. rewrite Hp. eauto.
    + destruct (f_default f) as [d|] eqn:Hd; [|intros H; by apply Herr in H].
      intros H. apply (Hstep d false) in H as (-> & Hother & Hset & Hdom & Hval);
        [|done].
      split; [done|]. split; [done|]. split; [done|]. split; [done|].
      intros Hnd f0 Hf0. destruct (Hval Hnd) as [Hv0 Hrest].
      apply elem_of_cons in Hf0 as [->|Hf0]; [|by apply Hrest].
      unfold field_value. rewrite Hp. eauto.
Qed.

Lemma field_crashes (f : field) (fs : list field) (payload : row)
    (inst : model_instance) (errs : list string) (v : pyval) (e : exn) :
  f ∈ fs -> payload !! f_name f = Some v -> type_ok f v = true ->
  run_validators (f_validators f) v = Raise e ->
  (forall msg, e <> ValueError msg) ->
  exists e', validate_fields fs payload inst errs = Raised e'.
Proof.
  intros Hin Hp Ht Hv Hne. revert inst errs.
  induction fs as [|f0 fs IH]; intros inst errs; [by apply elem_of_nil in Hin|].
  apply elem_of_cons in Hin as [<-|Hin]; cbn.
  - rewrite Hp, Ht, Hv. destruct e as [msg| |]; [by destruct (Hne msg)|eauto..].
  - specialize (IH Hin).
    destruct (payload !! f_name f0) as [v0|].
    + destruct (type_ok f0 v0); [|apply IH].
      destruct (run_validators (f_validators f0) v0) as [v'|[msg| |]]; eauto.
    + destruct (f_default f0); apply IH.
Qed.

Ltac value_error H := exfalso; eapply H; reflexivity.

Ltac each_field H :=
  repeat (apply elem_of_cons in H as [->|H]); [..|by apply elem_of_nil in H].

(** ** Event dates *)

Lemma date_lt_false_le (a b : date) : date_lt b a = false <-> date_le a b.
Proof.
  unfold date_le, date_lt. destruct a as [y m d], b as [y' m' d']; cbn.
  split.
  - intros H.
    destruct (Z.ltb_spec y' y); [discriminate|].
    destruct (Z.eqb_spec y' y) as [->|];
      [|right; destruct (Z.ltb_spec y y'); [reflexivity|lia]].
    rewrite Z.ltb_irrefl, Z.eqb_refl. cbn in *.
    destruct (Z.ltb_spec m' m); [discriminate|].
    destruct (Z.eqb_spec m' m) as [->|];
      [|right; destruct (Z.ltb_spec m m'); [reflexivity|lia]].
    rewrite Z.ltb_irrefl, Z.eqb_refl. cbn in *.
    destruct (Z.ltb_spec d' d); [discriminate|].
    destruct (Z.ltb_spec d d'); [by right|].
    left. f_equal. lia.
  - intros [[= -> -> ->]|H].
    + by rewrite !Z.ltb_irrefl, !Z.eqb_refl.
    + destruct (Z.ltb_spec y y'), (Z.eqb_spec y y'), (Z.ltb_spec m m'),
        (Z.eqb_spec m m'), (Z.ltb_spec d d'); try discriminate;
      destruct (Z.ltb_spec y' y), (Z.eqb_spec y' y), (Z.ltb_spec m' m),
        (Z.eqb_spec m' m), (Z.ltb_spec d' d); try reflexivity; lia.
Qed.

Lemma validate_time_range_time (v : pyval) (e : exn) :
  validate_time_range v = Raise e -> (forall msg, e <> ValueError msg) ->
  e = AttributeError
  /\ match v with VTime _ | VDateTime _ _ => False | _ => True end.
Proof.
  unfold validate_time_range, time_range_cond, py_or, py_and.
  destruct v as [| | | | | |t|d t| |]; cbn;
    try (intros [= <-] _; done);
    try (destruct (negb _); cbn; intros [= <-] _; done);
    try (destruct b; cbn; intros [= <-] _; done);
    try (destruct l; cbn; intros [= <-] _; done).
  all: destruct (hour t <? 0), (23 <? hour t), (minute t <? 0), (59 <? minute t);
    cbn; intros [= <-] Hne; try done; value_error Hne.
Qed.

Lemma run_one (g : pyval -> res pyval) (v : pyval) (e : exn) :
  run_validators [g] v = Raise e -> g v = Raise e.
Proof. cbn. destruct (g v); [discriminate|done]. Qed.

Lemma run_one_raise (g : pyval -> res pyval) (v : pyval) (e : exn) :
  g v = Raise e -> run_validators [g] v = Raise e.
Proof. cbn. by intros ->. Qed.

Lemma run_one_ret (g : pyval -> res pyval) (v v' : pyval) :
  run_validators [g] v = Ret v' -> g v = Ret v'.
Proof. cbn. destruct (g v); [done|discriminate]. Qed.

(** In the event models an exception escapes the time-range guard on an
    explicit null of an optional time field, and the date and duration
    validators of the update model on a null. *)
Lemma event_field_raises (today : date) (f : field) (v : pyval) (e : exn) :
  f ∈ EventPydantic today \/ f ∈ EventUpdatePydantic today ->
  type_ok f v = true ->
  run_validators (f_validators f) v = Raise e ->
  (forall msg, e <> ValueError msg) ->
  v = VNone /\ f_optional f = true
  /\ (f ∈ EventPydantic today -> e = AttributeError /\ f_name f ∈ optional_times).
Proof.
  intros [Hin|Hin] Ht Hv Hne; each_field Hin;
    try discriminate Hv; apply run_one in Hv.
  all: lazymatch type of Hv with
       | validate_time_range _ = _ =>
           destruct (validate_time_range_time _ _ Hv Hne) as [-> Hv'];
           destruct v; cbn in Ht; try discriminate; try done
       | _ =>
           destruct v; cbn in Ht; try discriminate; cbn in Hv;
           repeat match type of Hv with
             context [if ?c then _ else _] => destruct c
           end; try discriminate; try (injection Hv as <-; value_error Hne)
       end.
  all: split; [done|]; split; [done|]; intros Hin; try (split; [done|]).
  all: try (unfold optional_times; set_solver).
  all: exfalso; each_field Hin; discriminate.
Qed.

Lemma model_field_rejected (f : field) (m : model) (payload : row) :
  f ∈ m -> field_fails f payload ->
  match validate_model m payload with
  | Valid _ => False
  | Invalid es => f_name f ∈ es
  | Raised _ => True
  end.
Proof. apply field_rejected. Qed.

Lemma model_raised (m : model) (payload : row) (e : exn) :
  validate_model m payload = Raised e ->
  exists f v, f ∈ m /\ payload !! f_name f = Some v /\ type_ok f v = true
    /\ run_validators (f_validators f) v = Raise e
    /\ forall msg, e <> ValueError msg.
Proof. apply validate_fields_raised. Qed.

Lemma model_field_crashes (f : field) (m : model) (payload : row)
    (v : pyval) (e : exn) :
  f ∈ m -> payload !! f_name f = Some v -> type_ok f v = true ->
  run_validators (f_validators f) v = Raise e ->
  (forall msg, e <> ValueError msg) ->
  exists e', validate_model m payload = Raised e'.
Proof. apply field_crashes. Qed.

Lemma model_valid (m : model) (payload : row) (i : model_instance) :
  validate_model m payload = Valid i ->
  (forall n, n ∈ fields_set i <-> n ∈ names m /\ is_Some (payload !! n))
  /\ dom (values i) = list_to_set (names m)
  /\ (NoDup (names m) -> forall f, f ∈ m ->
        field_value f payload (values i !! f_name f)).
Proof.
  intros H. apply validate_fields_valid in H as (_ & _ & Hset & Hdom & Hval).
  split; [|split; [|exact Hval]].
  - intros n. rewrite Hset. cbn. set_solver.
  - rewrite Hdom. cbn. set_solver.
Qed.

Ltac in_list :=
  repeat first [ apply list_elem_of_here | apply list_elem_of_further ].

(** The fields at fault are failing fields. *)
Lemma validate_fields_invalid (fs : list field) (payload : row)
    (inst : model_instance) (errs es : list string) :
  validate_fields fs payload inst errs = Invalid es ->
  forall n, n ∈ es ->
    n ∈ errs \/ exists f, f ∈ fs /\ f_name f = n /\ field_fails f payload.
Proof.
  revert inst errs. induction fs as [|f fs IH]; intros inst errs; cbn.
  - destruct errs as [|e errs]; [discriminate|]. intros [= <-] n Hn. left.
    by apply list_elem_of_In, in_rev, list_elem_of_In.
  - assert (Hskip : forall i, validate_fields fs payload i errs = Invalid es ->
      forall n, n ∈ es ->
        n ∈ errs \/ exists f0, f0 ∈ f :: fs /\ f_name f0 = n /\ field_fails f0 payload).
    { intros i H n Hn. destruct (IH _ _ H n Hn) as [?|(f0 & Hin & Hrest)]; [by left|].
      right. exists f0. split; [by right|done]. }
    assert (Hfail : field_fails f payload ->
      validate_fields fs payload inst (f_name f :: errs) = Invalid es ->
      forall n, n ∈ es ->
        n ∈ errs \/ exists f0, f0 ∈ f :: fs /\ f_name f0 = n /\ field_fails f0 payload).
    { intros Hf H n Hn. destruct (IH _ _ H n Hn) as [Hin|(f0 & Hin & Hrest)].
      - apply elem_of_cons in Hin as [->|Hin]; [|by left].
        right. exists f. split; [by left|done].
      - right. exists f0. split; [by right|done]. }
    unfold field_fails in Hfail.
    destruct (payload !! f_name f) as [v|] eqn:Hp.
    + destruct (type_ok f v) eqn:Ht; [|apply Hfail; by left].
      destruct (run_validators (f_validators f) v) as [v'|[msg| |]] eqn:Hv;
        [apply Hskip|apply Hfail; right; by exists msg|discriminate|discriminate].
    + destruct (f_default f) eqn:Hd; [apply Hskip|by apply Hfail].
Qed.

(** A payload that gets every field right is accepted. *)
Lemma validate_fields_accepts (fs : list field) (payload : row)
    (inst : model_instance) :
  (forall f, f ∈ fs -> field_ok f payload) ->
  exists i, validate_fields fs payload inst [] = Valid i.
Proof.
  revert inst. induction fs as [|f fs IH]; intros inst Hok; cbn; [by eexists|].
  pose proof (Hok f ltac:(by left)) as Hf. unfold field_ok in Hf.
  assert (Hrest : forall f0, f0 ∈ fs -> field_ok f0 payload)
    by (intros f0 Hin; apply Hok; by right).
  destruct (payload !! f_name f) as [v|].
  - destruct Hf as (-> & v' & ->). by apply IH.
  - destruct Hf as [d ->]. by apply IH.
Qed.

Lemma model_invalid (m : model) (payload : row) (errs : list string) (n : string) :
  validate_model m payload = Invalid errs -> n ∈ errs ->
  exists f, f ∈ m /\ f_name f = n /\ field_fails f payload.
Proof.
  intros H Hn. destruct (validate_fields_invalid _ _ _ _ _ H n Hn) as [Hin|Hf];
    [by apply elem_of_nil in Hin|exact Hf].
Qed.

Lemma valid_field_ok (m : model) (payload : row) (data : model_instance) (f : field) :
  validate_model m payload = Valid data -> f ∈ m -> ~ field_fails f payload.
Proof.
  intros Hv Hin Hfail.
  pose proof (model_field_rejected f m payload Hin Hfail) as H.
  by rewrite Hv in H.
Qed.

Lemma valid_field_present (m : model) (payload : row) (data : model_instance)
    (f : field) :
  validate_model m payload = Valid data -> f ∈ m -> f_default f = None ->
  is_Some (payload !! f_name f).
Proof.
  intros Hv Hin Hd.
  destruct (payload !! f_name f) as [v|] eqn:Hp; [by eexists|].
  destruct (valid_field_ok m payload data f Hv Hin).
  unfold field_fails. by rewrite Hp.
Qed.

Lemma valid_field_runs (m : model) (payload : row) (data : model_instance)
    (f : field) (v : pyval) :
  validate_model m payload = Valid data -> f ∈ m ->
  payload !! f_name f = Some v ->
  type_ok f v = true /\ exists v', run_validators (f_validators f) v = Ret v'.
Proof.
  intros Hv Hin Hp.
  destruct (type_ok f v) eqn:Ht.
  - split; [done|].
    destruct (run_validators (f_validators f) v) as [v'|e] eqn:Hrun; [by eexists|].
    exfalso. destruct e as [msg| |].
    + apply (valid_field_ok m payload data f Hv Hin).
      unfold field_fails. rewrite Hp. right. by exists msg.
    + destruct (model_field_crashes f m payload v TypeError Hin Hp Ht Hrun)
        as [e' He']; [done|]. by rewrite Hv in He'.
    + destruct (model_field_crashes f m payload v AttributeError Hin Hp Ht Hrun)
        as [e' He']; [done|]. by rewrite Hv in He'.
  - exfalso. apply (valid_field_ok m payload data f Hv Hin).
    unfold field_fails. rewrite Hp. by left.
Qed.

(** Acceptance is decided field by field. *)
Lemma model_accepts (m : model) (payload : row) :
  (forall f, f ∈ m -> field_ok f payload)
  <-> exists data, validate_model m payload = Valid data.
Proof.
  split; [apply validate_fields_accepts|].
  intros [data Hv] f Hin. unfold field_ok.
  destruct (payload !! f_name f) as [v|] eqn:Hp.
  - apply (valid_field_runs m payload data f v Hv Hin Hp).
  - destruct (f_default f) as [d|] eqn:Hd; [by eexists|].
    destruct (valid_field_present m payload data f Hv Hin Hd) as [v Hv'].
    by rewrite Hp in Hv'.
Qed.

(** Without an escaping exception, a failing field is reported. *)
Lemma model_refuses (f : field) (m : model) (payload : row) :
  f ∈ m -> field_fails f payload ->
  (forall g, g ∈ m -> ~ field_escapes g payload) ->
  exists errs, validate_model m payload = Invalid errs /\ f_name f ∈ errs.
Proof.
  intros Hin Hfail Hnone.
  pose proof (model_field_rejected f m payload Hin Hfail) as Hrej.
  destruct (validate_model m payload) as [i|errs|e] eqn:Hv; [done|by eexists|].
  destruct (model_raised _ _ _ Hv) as (g & v & Hg & Hp & Ht & Hrun & Hne).
  destruct (Hnone g Hg). by exists v, e.
Qed.

Lemma with_body_invalid {DB A : Type} (m : model) (payload : row)
    (k : model_instance -> api DB A) (errs : list string) (db0 : DB) :
  validate_model m payload = Invalid errs ->
  with_body m payload k db0 = (Failure (VALIDATION_ERROR errs), db0).
Proof. unfold with_body. by intros ->. Qed.

Lemma with_body_raised {DB A : Type} (m : model) (payload : row)
    (k : model_instance -> api DB A) (e : exn) (db0 : DB) :
  validate_model m payload = Raised e ->
  with_body m payload k db0 = (Failure (Unhandled e), db0).
Proof. unfold with_body. by intros ->. Qed.

Lemma with_body_valid {DB A : Type} (m : model) (payload : row)
    (k : model_instance -> api DB A) (data : model_instance) (db0 : DB) :
  validate_model m payload = Valid data ->
  with_body m payload k db0 = k data db0.
Proof. unfold with_body. by intros ->. Qed.

Lemma time_range_guard_null_field (today : date) (payload : row) (n : string) :
  n ∈ optional_times ->
  payload !! n = Some VNone ->
  validate_model (EventPydantic today) payload = Raised AttributeError
  /\ exists e, validate_model (EventUpdatePydantic today) payload = Raised e.
Proof.
  intros Hn Hp.
  assert (Hf : exists t,
    checked (opt n t) validate_time_range ∈ EventPydantic today
    /\ checked (opt n t) validate_time_range ∈ EventUpdatePydantic today).
  { unfold optional_times in Hn. each_field Hn;
      first [ exists TDateTime; split; in_list; fail
            | exists TTime; split; in_list ]. }
  destruct Hf as (t & Hin & Hin').
  split.
  - destruct (model_field_crashes _ _ payload VNone AttributeError Hin)
      as [e He]; try done.
    rewrite He.
    destruct (model_raised _ _ _ He) as (f & v & Hf & Hpf & Ht & Hrun & Hne).
    destruct (event_field_raises today f v e (or_introl Hf) Ht Hrun Hne)
      as (_ & _ & Hev).
    by destruct (Hev Hf) as [-> _].
  - by apply (model_field_crashes _ _ payload VNone AttributeError Hin').
Qed.

(** C4 (the code does otherwise on one kind of body). The date rule
    itself accepts exactly today and later dates: a date before today is
    refused with the ValueError that becomes the validation error, today
    itself passes. An event creation whose date lies before today never
    reaches the data manager, and fails with VALIDATION_ERROR naming the
    date when the body gives no optional time field as an explicit null;
    when it gives one, the AttributeError of the time-range guard
    escapes and takes the place of the validation error. A date that is
    today or later is never among the fields at fault, and when the
    other fields are right the body is accepted and handed to
    create_event. *)
Theorem event_date_today_or_later (today d : date) :
  (validate_future_date today (VDate d) = Ret (VDate d) <-> date_le today d)
  /\ (validate_future_date today (VDate d)
      = Raise (ValueError "Date must be today or in the future")
      <-> date_lt d today = true)
  /\ validate_future_date today (VDate today) = Ret (VDate today)
  /\ forall (DB : Type) (dm : DataManagerInterface DB) (payload : row)
       (current_user : UserAuthPydantic) (db0 : DB),
       payload !! "date" = Some (VDate d) ->
       (date_lt d today = true ->
          ((forall n, n ∈ optional_times -> payload !! n <> Some VNone) ->
           exists errs,
             route_create_event dm today payload current_user db0
             = (Failure (VALIDATION_ERROR errs), db0)
             /\ "date" ∈ errs)
          /\ ((exists n, n ∈ optional_times /\ payload !! n = Some VNone) ->
              route_create_event dm today payload current_user db0
              = (Failure (Unhandled AttributeError), db0)))
       /\ (date_le today d ->
            (forall errs,
               validate_model (EventPydantic today) payload = Invalid errs ->
               "date" ∉ errs)
            /\ ((forall f, f ∈ EventPydantic today -> f_name f <> "date" ->
                    field_ok f payload) ->
                exists data,
                  validate_model (EventPydantic today) payload = Valid data
                  /\ route_create_event dm today payload current_user db0
                     = api_bind (create_event DB dm data current_user)
                         (fun id_event => api_ret (RNewId "event_id" id_event))
                         db0)).
Proof.
  split; [|split; [|split]].
  - rewrite <- date_lt_false_le. unfold validate_future_date.
    destruct (date_lt d today); split; (discriminate || done).
  - unfold validate_future_date.
    destruct (date_lt d today); split; (discriminate || done).
  - unfold validate_future_date.
    assert (date_lt today today = false) as ->; [|done].
    apply date_lt_false_le. by left.
  - intros DB dm payload current_user db0 Hp. split.
    + intros Hlt. split.
      * intros Hnonull. unfold route_create_event.
        pose proof (model_field_rejected
          (checked (req "date" TDate) (validate_future_date today))
          (EventPydantic today) payload) as Hrej.
        destruct (validate_model (EventPydantic today) payload) as [i|errs|e] eqn:Hv.
        -- exfalso. apply Hrej; [in_list|].
           unfold field_fails. cbn. rewrite Hp. right. cbn. rewrite Hlt. eauto.
        -- exists errs. split; [by apply with_body_invalid|].
           apply Hrej; [in_list|].
           unfold field_fails. cbn. rewrite Hp. right. cbn. rewrite Hlt. eauto.
        -- exfalso.
           destruct (model_raised _ _ _ Hv) as (f & v & Hin & Hpf & Ht & Hrun & Hne).
           destruct (event_field_raises today f v e (or_introl Hin) Ht Hrun Hne)
             as (-> & _ & Hev).
           destruct (Hev Hin) as [_ Hname]. by apply (Hnonull _ Hname).
      * intros (n & Hn & Hnull). unfold route_create_event.
        apply with_body_raised.
        exact (proj1 (time_range_guard_null_field today payload n Hn Hnull)).
    + intros Hle.
      assert (Hdate : field_ok (checked (req "date" TDate) (validate_future_date today))
                        payload).
      { unfold field_ok. cbn. rewrite Hp. split; [done|]. exists (VDate d).
        cbn. by rewrite (proj2 (date_lt_false_le today d) Hle). }
      split.
      * intros errs Hv Hin.
        destruct (model_invalid _ _ _ _ Hv Hin) as (f & Hf & Hname & Hfail).
        each_field Hf; try discriminate Hname.
        unfold field_ok in Hdate. unfold field_fails in Hfail.
        cbn in Hdate, Hfail. rewrite Hp in Hdate, Hfail.
        destruct Hdate as (Ht & v' & Hrun).
        destruct Hfail as [Hfail|[msg Hfail]]; [by rewrite Ht in Hfail|].
        rewrite Hrun in Hfail. discriminate Hfail.
      * intros Hothers.
        destruct (proj1 (model_accepts (EventPydantic today) payload)) as [data Hv].
        { intros f Hin. destruct (decide (f_name f = "date")) as [Hname|Hname];
            [|by apply Hothers].
          each_field Hin; try discriminate Hname. exact Hdate. }
        exists data. split; [exact Hv|].
        unfold route_create_event. by rewrite (with_body_valid _ _ _ data).
Qed.

(** C9 (the code does otherwise). An explicit null in one of the
    optional time fields does not come back unchanged: the guard
    [time_val and time_val.hour < 0 or time_val.hour > 23 or ...] reads
    [time_val.hour] of None, so the validator raises AttributeError on
    None, and for each of arrive, stage_set, stage_check, catering_open,
    catering_close and meal_time, validation of any event body that
    gives the field as null ends with an escaping exception, for
    EventPydantic (AttributeError) and EventUpdatePydantic alike. *)
Theorem time_range_guard_on_null (today : date) (payload : row) :
  validate_time_range VNone = Raise AttributeError
  /\ Forall (fun n =>
       validate_model (EventPydantic today) (<[n := VNone]> payload)
       = Raised AttributeError
       /\ exists e,
          validate_model (EventUpdatePydantic today) (<[n := VNone]> payload)
          = Raised e)
     optional_times.
Proof.
  split; [reflexivity|]. apply Forall_forall. intros n Hn.
  apply (time_range_guard_null_field today _ n Hn), lookup_insert_eq.
Qed.

(** ** Currency codes *)

Lemma validate_currency_code_member (s : pystr) :
  (validate_currency_code (VStr s) = Ret (VStr s) <-> s ∈ Currency)
  /\ (validate_currency_code (VStr s)
      = Raise (ValueError "Invalid ISO 4217 currency code") <-> s ∉ Currency).
Proof.
  unfold validate_currency_code. case_bool_decide; split; split; try done.
Qed.

Lemma validate_currency_code_value_error (v : pyval) (e : exn) :
  validate_currency_code v = Raise e ->
  e = ValueError "Invalid ISO 4217 currency code".
Proof.
  unfold validate_currency_code.
  destruct v; try (by intros [= <-]). case_bool_decide; [discriminate|by intros [= <-]].
Qed.

(** The contract models let no exception escape. *)
Lemma contract_models_never_raise (payload : row) (e : exn) :
  validate_model ContractPydantic payload <> Raised e
  /\ validate_model ContractUpdatePydantic payload <> Raised e.
Proof.
  split; intros H;
    apply model_raised in H as (f & v & Hin & _ & _ & Hrun & Hne);
    each_field Hin; try discriminate Hrun;
    apply run_one, validate_currency_code_value_error in Hrun;
    subst e; value_error Hne.
Qed.

(** C1 (as amended). A contract creation whose currency_code is not a
    member of the ISO 4217 table of the [Currency] enumeration is
    refused with VALIDATION_ERROR naming the field, the store is left as
    it was and the data manager is not reached. Membership in the table
    is the whole test: the validator returns exactly the members. *)
Theorem contract_currency_outside_table_rejected
    (DB : Type) (dm : DataManagerInterface DB) (payload : row)
    (current_user : UserAuthPydantic) (db0 : DB) :
  (forall s, payload !! "currency_code" = Some (VStr s) -> s ∉ Currency) ->
  (exists errs,
      route_create_contract dm payload current_user db0
      = (Failure (VALIDATION_ERROR errs), db0)
      /\ "currency_code" ∈ errs)
  /\ (forall s, validate_currency_code (VStr s) = Ret (VStr s) <-> s ∈ Currency).
Proof.
  intros Hout. split; [|intros s; apply validate_currency_code_member].
  unfold route_create_contract.
  pose proof (model_field_rejected
    (checked (req "currency_code" TStr) validate_currency_code)
    ContractPydantic payload) as Hrej.
  assert (Hfail : field_fails
    (checked (req "currency_code" TStr) validate_currency_code) payload).
  { unfold field_fails. cbn.
    destruct (payload !! "currency_code") as [v|] eqn:Hp; [|done].
    destruct v; try (by left). right. cbn.
    specialize (Hout s eq_refl). rewrite bool_decide_eq_false_2 by done. eauto. }
  destruct (validate_model ContractPydantic payload) as [i|errs|e] eqn:Hv.
  - exfalso. apply Hrej; [in_list|done].
  - exists errs. split; [by apply with_body_invalid|].
    apply Hrej; [in_list|done].
  - by destruct (proj1 (contract_models_never_raise payload e)).
Qed.

(** ** Valid objects of a model with distinct field names *)

Ltac nodup_names := apply (bool_decide_unpack _); vm_compute; exact I.

Lemma valid_dom (m : model) (payload : row) (i : model_instance) :
  validate_model m payload = Valid i ->
  dom (values i) = list_to_set (names m).
Proof.
  intros H. by apply model_valid in H as (_ & Hdom & _).
Qed.

Lemma valid_fields_set (m : model) (payload : row) (i : model_instance) (n : string) :
  validate_model m payload = Valid i ->
  n ∈ fields_set i <-> n ∈ names m /\ is_Some (payload !! n).
Proof.
  intros H. apply model_valid in H as (Hset & _). apply Hset.
Qed.

Lemma valid_lookup (m : model) (payload : row) (i : model_instance) (f : field) :
  validate_model m payload = Valid i ->
  NoDup (names m) -> pure_validators m -> f ∈ m ->
  values i !! f_name f
  = match payload !! f_name f with
    | Some v => Some v
    | None => f_default f
    end.
Proof.
  intros H Hnd Hpure Hin.
  apply model_valid in H as (_ & _ & Hval).
  specialize (Hval Hnd f Hin). unfold field_value in Hval.
  destruct (payload !! f_name f) as [v|].
  - destruct Hval as (_ & v' & Hrun & ->). by rewrite (Hpure f v v' Hin Hrun).
  - by destruct Hval as (d & -> & ->).
Qed.

Lemma validate_phone_number_pure (v v' : pyval) :
  validate_phone_number v = Ret v' -> v' = v.
Proof.
  unfold validate_phone_number. destruct v; try discriminate.
  destruct (negb _); [discriminate|]. by intros [= <-].
Qed.

Lemma validate_currency_code_pure (v v' : pyval) :
  validate_currency_code v = Ret v' -> v' = v.
Proof.
  unfold validate_currency_code. destruct v; try discriminate.
  case_bool_decide; [|discriminate]. by intros [= <-].
Qed.

Lemma validate_future_date_pure (today : date) (v v' : pyval) :
  validate_future_date today v = Ret v' -> v' = v.
Proof.
  unfold validate_future_date. destruct v; try discriminate.
  destruct (date_lt _ _); [discriminate|]. by intros [= <-].
Qed.

Lemma validate_duration_pure (v v' : pyval) :
  validate_duration v = Ret v' -> v' = v.
Proof.
  unfold validate_duration. destruct v; try discriminate.
  destruct (_ <=? _); [discriminate|]. by intros [= <-].
Qed.

Lemma validate_time_range_pure (v v' : pyval) :
  validate_time_range v = Ret v' -> v' = v.
Proof.
  unfold validate_time_range.
  destruct (time_range_cond v) as [[|]|]; cbn; try discriminate. by intros [= <-].
Qed.

Ltac pure_model :=
  let f := fresh "f" in let v := fresh "v" in let v' := fresh "v'" in
  let Hin := fresh "Hin" in let Hrun := fresh "Hrun" in
  intros f v v' Hin Hrun; each_field Hin;
  first [ by injection Hrun as <-
        | apply run_one_ret in Hrun;
          first [ by apply validate_phone_number_pure in Hrun
                | by apply validate_currency_code_pure in Hrun
                | by apply validate_future_date_pure in Hrun
                | by apply validate_duration_pure in Hrun
                | by apply validate_time_range_pure in Hrun ] ].

Lemma UserNoPwdPydantic_pure : pure_validators UserNoPwdPydantic.
Proof. pure_model. Qed.

Lemma UserUpdatePydantic_pure : pure_validators UserUpdatePydantic.
Proof. pure_model. Qed.

Lemma ProfilePydantic_pure : pure_validators ProfilePydantic.
Proof. pure_model. Qed.

Lemma ContractUpdatePydantic_pure : pure_validators ContractUpdatePydantic.
Proof. pure_model. Qed.

Lemma EventUpdatePydantic_pure (today : date) :
  pure_validators (EventUpdatePydantic today).
Proof. pure_model. Qed.

Lemma sample_accommodation_update_pure :
  pure_validators sample_accommodation_update.
Proof. pure_model. Qed.

(** ** Accommodation routes *)

(** C6. Reading, updating and deleting an accommodation gives the same
    outcome and the same store whoever the authenticated actor is: the
    routes hand the data manager the identifier, the body and the
    session only, and no accommodation method of the interface takes an
    actor. *)
Theorem accommodation_routes_ignore_actor
    (DB : Type) (dm : DataManagerInterface DB) (actor1 actor2 : UserAuthPydantic)
    (accommodation_id : Z) (accommodation_data : row) (db0 : DB) :
  route_get_accommodation dm accommodation_id actor1 db0
  = route_get_accommodation dm accommodation_id actor2 db0
  /\ route_update_accommodation dm accommodation_id accommodation_data actor1 db0
     = route_update_accommodation dm accommodation_id accommodation_data actor2 db0
  /\ route_delete_accommodation dm accommodation_id actor1 db0
     = route_delete_accommodation dm accommodation_id actor2 db0.
Proof. repeat split; reflexivity. Qed.

(** ** The self-read of a user *)

(** C8. Whatever row the data manager returns for the current user,
    a successful get_user_me answers with exactly the fields of
    UserNoPwdPydantic: id, username, type_of_entity, name, surname,
    email_address, phone_number, vat_id, bank_account, is_active,
    deactivation_date and delete_at, each with the user's value (None
    for an optional one the row lacks), and neither password nor
    hashed_password. *)
Theorem get_user_me_projection
    (DB : Type) (dm : DataManagerInterface DB) (current_user : UserAuthPydantic)
    (db0 db1 : DB) (r : response) :
  route_get_user_me dm current_user db0 = (Success r, db1) ->
  exists user proj,
    get_user_by_id DB dm (auth_id current_user) db0 = (Success user, db1)
    /\ r = RRow proj
    /\ dom proj = list_to_set user_projection
    /\ ("password" ∉ dom proj)
    /\ ("hashed_password" ∉ dom proj)
    /\ forall n, n ∈ user_projection -> proj !! n = Some (default VNone (user !! n)).
Proof.
  unfold route_get_user_me, api_bind, with_response_model.
  destruct (get_user_by_id DB dm (auth_id current_user) db0) as [[user|f] db'];
    [|discriminate].
  destruct (validate_model UserNoPwdPydantic user) as [i| |] eqn:Hv;
    [|discriminate..].
  intros [= <- <-]. exists user, (model_dump i). split; [done|]. split; [done|].
  pose proof (valid_dom _ _ _ Hv) as Hdom. unfold model_dump.
  split; [exact Hdom|]. rewrite Hdom.
  split; [vm_compute; set_solver|]. split; [vm_compute; set_solver|].
  intros n Hn.
  change user_projection with (names UserNoPwdPydantic) in Hn.
  apply list_elem_of_fmap in Hn as (f & -> & Hin).
  assert (Hd : f_default f = None \/ f_default f = Some VNone).
  { clear -Hin. each_field Hin; cbn; eauto. }
  rewrite (valid_lookup _ _ _ f Hv); [|nodup_names|apply UserNoPwdPydantic_pure|done].
  destruct (user !! f_name f) as [v|] eqn:Hu; [done|]. cbn.
  destruct Hd as [Hd|Hd]; [|done].
  exfalso.
  pose proof (model_field_rejected f UserNoPwdPydantic user Hin) as Hrej.
  rewrite Hv in Hrej.
  apply Hrej. unfold field_fails. by rewrite Hu.
Qed.

(** ** The lifecycle manager *)

Lemma merge_lookup_unset (inst : row) (data : model_instance) (n : string) :
  n ∉ fields_set data -> merge inst data !! n = inst !! n.
Proof.
  intros Hn. unfold merge, model_dump_exclude_unset.
  apply lookup_union_r, map_lookup_filter_None. right. by intros x _ Hx.
Qed.

Lemma merge_lookup_set (inst : row) (data : model_instance) (n : string) (v : pyval) :
  n ∈ fields_set data -> values data !! n = Some v ->
  merge inst data !! n = Some v.
Proof.
  intros Hn Hv. unfold merge, model_dump_exclude_unset.
  apply lookup_union_Some_raw. left. by apply map_lookup_filter_Some.
Qed.

Lemma update_entity_spec (k : kind) (actor id : Z) (data : model_instance) (s : db) :
  update_entity k actor id data s
  = match table k s !! id with
    | None => (Failure NOT_FOUND, s)
    | Some inst =>
        match authorize s actor k id inst Update with
        | ALLOW =>
            (Success (merge inst data),
             set_table k (<[id := merge inst data]> (table k s)) s)
        | DENY reason => (Failure (FORBIDDEN reason), s)
        end
    end.
Proof.
  unfold update_entity, api_bind, fetch, consult, persist, api_ret.
  destruct (table k s !! id) as [inst|]; [|done].
  by destruct (authorize s actor k id inst Update).
Qed.

Lemma delete_entity_spec (k : kind) (actor id : Z) (s : db) :
  delete_entity k actor id s
  = match table k s !! id with
    | None => (Failure NOT_FOUND, s)
    | Some inst =>
        match authorize s actor k id inst Delete with
        | ALLOW => (Success true, set_table k (delete id (table k s)) s)
        | DENY reason => (Failure (FORBIDDEN reason), s)
        end
    end.
Proof.
  unfold delete_entity, api_bind, fetch, consult, remove, api_ret.
  destruct (table k s !! id) as [inst|]; [|done].
  by destruct (authorize s actor k id inst Delete).
Qed.

(** ** Profiles *)

(** C5. On a stored profile, update_profile (with a body the route
    accepts) and delete_profile by an actor who is not the owner fail
    with FORBIDDEN "not the owner" and leave the store as it was; by the
    owner, the update stores and returns the merged profile and the
    delete removes it. *)
Theorem profile_update_delete_owner_only
    (now : date * time) (s : db) (profile_id owner : Z) (P : row)
    (payload : row) (data : model_instance) (actor : UserAuthPydantic) :
  profiles s !! profile_id = Some P ->
  owner_user_id P = Some owner ->
  validate_model ProfilePydantic payload = Valid data ->
  (auth_id actor <> owner ->
     route_update_profile (SpecDataManager now) profile_id payload actor s
     = (Failure (FORBIDDEN "not the owner"), s)
     /\ route_delete_profile (SpecDataManager now) profile_id actor s
        = (Failure (FORBIDDEN "not the owner"), s))
  /\ (auth_id actor = owner ->
     route_update_profile (SpecDataManager now) profile_id payload actor s
     = (Success (RRow (merge P data)),
        set_table Profile (<[profile_id := merge P data]> (profiles s)) s)
     /\ route_delete_profile (SpecDataManager now) profile_id actor s
        = (Success (RMessage "Profile deleted successfully"),
           set_table Profile (delete profile_id (profiles s)) s)).
Proof.
  intros HP Hown Hv.
  unfold route_update_profile, route_delete_profile.
  rewrite (with_body_valid _ _ _ data) by done.
  unfold api_bind. cbn [update_profile delete_profile SpecDataManager].
  rewrite update_entity_spec, delete_entity_spec. cbn [table].
  rewrite HP. cbn [authorize]. unfold owns. rewrite Hown.
  split; intros Hactor.
  - rewrite bool_decide_eq_false_2 by congruence. done.
  - rewrite bool_decide_eq_true_2 by congruence. done.
Qed.

(** ** Users *)

(** C10. A soft-deleted user can undo it through update_user: the body
    {is_active: true, deactivation_date: null} is accepted by
    UserUpdatePydantic, and the update, made by that user, stores and
    returns the user's row with is_active true and deactivation_date
    cleared, every other column as before. is_active,
    deactivation_date and delete_at are fields of UserUpdatePydantic;
    disabled and disabled_at are not fields of ContractUpdatePydantic. *)
Theorem soft_deleted_user_can_reactivate
    (now : date * time) (s : db) (actor : UserAuthPydantic) (u : row) (at_ : pyval) :
  users s !! auth_id actor = Some u ->
  u !! "deactivation_date" = Some at_ ->
  at_ <> VNone ->
  (exists payload u' s',
      route_update_user (SpecDataManager now) payload actor s
      = (Success (RRow u'), s')
      /\ users s' !! auth_id actor = Some u'
      /\ u' !! "is_active" = Some (VBool true)
      /\ u' !! "deactivation_date" = Some VNone
      /\ forall c, c <> "is_active" -> c <> "deactivation_date" -> u' !! c = u !! c)
  /\ "is_active" ∈ names UserUpdatePydantic
  /\ "deactivation_date" ∈ names UserUpdatePydantic
  /\ "delete_at" ∈ names UserUpdatePydantic
  /\ ("disabled" ∉ names ContractUpdatePydantic)
  /\ ("disabled_at" ∉ names ContractUpdatePydantic).
Proof.
  intros Hu _ _. split.
  - destruct (validate_model UserUpdatePydantic reactivation) as [data| |] eqn:Hv;
      [|by vm_compute in Hv..].
    exists reactivation, (merge u data),
      (set_table User (<[auth_id actor := merge u data]> (users s)) s).
    assert (Hset : forall n, n ∈ fields_set data
                   <-> n = "is_active" \/ n = "deactivation_date").
    { intros n. rewrite (valid_fields_set _ _ _ n Hv). unfold reactivation. split.
      - intros [_ [v Hn]].
        destruct (decide (n = "is_active")) as [|H1]; [by left|right].
        destruct (decide (n = "deactivation_date")) as [|H2]; [done|].
        by rewrite lookup_insert_ne, lookup_singleton_ne in Hn.
      - intros [-> | ->]; (split; [vm_compute; in_list|vm_compute; by eexists]). }
    split.
    { unfold route_update_user. rewrite (with_body_valid _ _ _ data) by done.
      unfold api_bind. cbn [update_user SpecDataManager].
      rewrite update_entity_spec. cbn [table]. rewrite Hu. cbn [authorize].
      by rewrite bool_decide_eq_true_2. }
    split; [cbn; apply lookup_insert_eq|].
    split.
    { apply merge_lookup_set; [apply Hset; by left|].
      etrans; [apply (valid_lookup _ _ _ (opt "is_active" TBool) Hv);
               [nodup_names|apply UserUpdatePydantic_pure|in_list]|].
      by vm_compute. }
    split.
    { apply merge_lookup_set; [apply Hset; by right|].
      etrans; [apply (valid_lookup _ _ _ (opt "deactivation_date" TDateTime) Hv);
               [nodup_names|apply UserUpdatePydantic_pure|in_list]|].
      by vm_compute. }
    intros c H1 H2. apply merge_lookup_unset. rewrite Hset. naive_solver.
  - repeat split; try (vm_compute; in_list); vm_compute; set_solver.
Qed.

(** ** Updates *)

Lemma update_model_wf (today : date) (k : kind) :
  NoDup (names AccommodationUpdatePydantic) ->
  pure_validators AccommodationUpdatePydantic ->
  NoDup (names (update_model today k)) /\ pure_validators (update_model today k).
Proof.
  intros Hnd Hpure. destruct k; cbn [update_model];
    (split; [first [ exact Hnd | nodup_names ]|]).
  - apply UserUpdatePydantic_pure.
  - apply ProfilePydantic_pure.
  - apply ContractUpdatePydantic_pure.
  - apply EventUpdatePydantic_pure.
  - exact Hpure.
Qed.

(** After validation every update route runs the same protocol. *)
Lemma route_update_valid (now : date * time) (k : kind) (id : Z) (payload : row)
    (actor : UserAuthPydantic) (s : db) (data : model_instance) (inst : row) :
  validate_model (update_model (fst now) k) payload = Valid data ->
  table k s !! update_target k id actor = Some inst ->
  authorize s (auth_id actor) k (update_target k id actor) inst Update = ALLOW ->
  route_update (SpecDataManager now) (fst now) k id payload actor s
  = (Success (RRow (merge inst data)),
     set_table k (<[update_target k id actor := merge inst data]> (table k s)) s).
Proof.
  intros Hv Hin Hauth.
  destruct k; cbn [route_update update_model update_target] in *;
    unfold route_update_user, route_update_profile, route_update_contract,
      route_update_event, route_update_accommodation;
    rewrite (with_body_valid _ _ _ data) by done;
    unfold api_bind;
    cbn [update_user update_profile update_contract update_event
         update_accommodation SpecDataManager];
    try (rewrite update_entity_spec, Hin, Hauth; done).
  unfold api_bind, fetch, persist, api_ret. cbn [table] in *. by rewrite Hin.
Qed.

Lemma validate_phone_number_raises (v : pyval) (e : exn) :
  validate_phone_number v = Raise e ->
  (forall msg, e <> ValueError msg) -> e = TypeError /\ forall s, v <> VStr s.
Proof.
  unfold validate_phone_number. intros H Hne.
  destruct v; try (injection H as <-; by split).
  destruct (negb _); [|discriminate]. injection H as <-. value_error Hne.
Qed.

(** In the update models an exception escapes a validator only on an
    explicit null, and only in the user and event models. *)
Lemma update_model_escapes (today : date) (k : kind) (payload : row) (g : field) :
  k <> Accommodation ->
  g ∈ update_model today k -> field_escapes g payload ->
  (k = User \/ k = Event) /\ payload !! f_name g = Some VNone.
Proof.
  intros Hk Hg (v & e & Hp & Ht & Hrun & Hne).
  destruct k; cbn [update_model] in Hg; [| | | |done].
  - split; [by left|]. rewrite Hp. f_equal.
    each_field Hg; try discriminate Hrun.
    apply run_one in Hrun.
    destruct (validate_phone_number_raises v e Hrun Hne) as [_ Hv].
    destruct v; try discriminate Ht; [done|by destruct (Hv s)].
  - exfalso. each_field Hg; discriminate Hrun.
  - exfalso. each_field Hg; try discriminate Hrun.
    apply run_one, validate_currency_code_value_error in Hrun.
    subst e. value_error Hne.
  - split; [by right|]. rewrite Hp. f_equal.
    by destruct (event_field_raises today g v e (or_intror Hg) Ht Hrun Hne)
      as (-> & _).
Qed.

(** C2 (as amended). For every entity kind, an update whose body the
    kind's payload model accepts is a partial merge: with the stored
    instance found and the actor allowed, the route stores and returns
    the merged instance, in which every column absent from the body and
    every column that is not a field of the model keeps its value, and
    every field the body supplies, a null included, has the supplied
    value. A body that gets a field wrong (a required field left out, a
    null or another value that the type of the field excludes, a value
    that a validator refuses) is answered with VALIDATION_ERROR naming
    the field and the store is left as it was, on every body on which no
    validator lets an exception escape; an exception escapes only on an
    explicit null, and only in user and event updates. *)
Theorem update_is_partial_merge_when_accepted
    (now : date * time) (k : kind) (id : Z) (payload : row)
    (actor : UserAuthPydantic) (s : db) :
  NoDup (names AccommodationUpdatePydantic) ->
  pure_validators AccommodationUpdatePydantic ->
  (forall f,
      f ∈ update_model (fst now) k -> field_fails f payload ->
      (forall g, g ∈ update_model (fst now) k -> ~ field_escapes g payload) ->
      exists errs,
        f_name f ∈ errs
        /\ route_update (SpecDataManager now) (fst now) k id payload actor s
           = (Failure (VALIDATION_ERROR errs), s))
  /\ (forall g,
      k <> Accommodation ->
      g ∈ update_model (fst now) k -> field_escapes g payload ->
      (k = User \/ k = Event) /\ payload !! f_name g = Some VNone)
  /\ (forall data inst,
      validate_model (update_model (fst now) k) payload = Valid data ->
      table k s !! update_target k id actor = Some inst ->
      authorize s (auth_id actor) k (update_target k id actor) inst Update = ALLOW ->
      route_update (SpecDataManager now) (fst now) k id payload actor s
      = (Success (RRow (merge inst data)),
         set_table k (<[update_target k id actor := merge inst data]> (table k s)) s)
      /\ (forall c, c ∉ dom payload -> merge inst data !! c = inst !! c)
      /\ (forall c, c ∉ names (update_model (fst now) k) ->
            merge inst data !! c = inst !! c)
      /\ (forall c v, c ∈ names (update_model (fst now) k) ->
            payload !! c = Some v -> merge inst data !! c = Some v)).
Proof.
  intros Hnd Hpure. split; [|split].
  - intros f Hin Hfail Hnone.
    destruct (model_refuses f _ payload Hin Hfail Hnone) as (errs & Hv & Hf).
    exists errs. split; [exact Hf|].
    destruct k; cbn [route_update update_model] in *;
      unfold route_update_user, route_update_profile, route_update_contract,
        route_update_event, route_update_accommodation;
      by apply with_body_invalid.
  - intros g Hk Hg Hesc. by apply (update_model_escapes (fst now) k payload g).
  - intros data inst Hv Hin Hauth.
    destruct (update_model_wf (fst now) k Hnd Hpure) as [Hnd' Hpure'].
    split; [by apply route_update_valid|].
    split; [|split].
    + intros c Hc. apply merge_lookup_unset.
      rewrite (valid_fields_set _ _ _ c Hv). intros [_ Hsome].
      apply Hc, elem_of_dom, Hsome.
    + intros c Hc. apply merge_lookup_unset.
      rewrite (valid_fields_set _ _ _ c Hv). by intros [? _].
    + intros c v Hc Hp.
      apply list_elem_of_fmap in Hc as (f & -> & Hf).
      apply merge_lookup_set.
      * apply (valid_fields_set _ _ _ _ Hv). split; [|by eexists].
        by apply list_elem_of_fmap_2.
      * by rewrite (valid_lookup _ _ _ f Hv Hnd' Hpure' Hf), Hp.
Qed.

(** ** Contracts *)

Ltac run_api :=
  unfold with_body, with_response_model, api_bind, api_ret, api_fail, api_map,
    create_entity, read_entity, update_entity, delete_entity, live_ref, live,
    fetch, consult, persist, remove, new_id in *;
  cbn [fst snd table set_table contracts users profiles events accommodations] in *.

Lemma handle_contracts_step (c : call) (s : db) :
  contracts_step (contracts s) (contracts (snd (handle c s))).
Proof.
  destruct c as [now u r]. unfold handle. cbn [what clock caller].
  destruct r.
  all: try (apply step_same;
            unfold route_sign_up, route_get_user_me, route_update_user,
              route_soft_delete_user, route_create_profile, route_get_profile,
              route_update_profile, route_delete_profile, route_get_contract,
              route_create_event, route_get_event, route_update_event,
              route_delete_event, route_create_accommodation,
              route_get_accommodation, route_update_accommodation,
              route_delete_accommodation;
            cbn [create_user get_user_by_id soft_delete_user update_user
                 create_profile get_profile_by_id update_profile delete_profile
                 get_contract_by_id get_contract_events create_event
                 get_event_by_id update_event delete_event create_accommodation
                 get_accommodation_by_id update_accommodation
                 delete_accommodation SpecDataManager];
            run_api; repeat (case_match; run_api; simplify_eq/=); done).
  - (* create_contract *)
    unfold route_create_contract. cbn [create_contract SpecDataManager]. run_api.
    destruct (validate_model ContractPydantic contract_data); [|by apply step_same..].
    repeat (case_match; run_api; simplify_eq/=); try by apply step_same.
    all: eapply step_create; [|reflexivity];
      apply not_elem_of_dom, is_fresh.
  - (* update_contract *)
    unfold route_update_contract. cbn [update_contract SpecDataManager].
    unfold with_body.
    destruct (validate_model ContractUpdatePydantic contract_data) as [data| |] eqn:Hv;
      [|by apply step_same..].
    unfold api_bind. rewrite update_entity_spec. cbn [table].
    destruct (contracts s !! contract_id) as [r|] eqn:Hr; [|by apply step_same].
    cbn [authorize].
    destruct (owns (auth_id u) r); [|by apply step_same].
    destruct (is_disabled r) eqn:Hd; [by apply step_same|].
    by eapply step_update.
  - (* disable_contract *)
    unfold route_disable_contract. cbn [disable_contract SpecDataManager].
    destruct disable_at; try by apply step_same.
    all: run_api;
      destruct (contracts s !! contract_id) as [r|] eqn:Hr; [|by apply step_same];
      cbn [authorize]; destruct (owns (auth_id u) r); [|by apply step_same];
      cbn [fst snd contracts];
      eapply step_disable; [done| |reflexivity]; done.
Qed.

Lemma is_disabled_true (r : row) :
  r !! "disabled" = Some (VBool true) -> is_disabled r = true.
Proof. unfold is_disabled. by intros ->. Qed.

Lemma contracts_step_disabled (s s' : db) (contract_id : Z) :
  contracts_step (contracts s) (contracts s') ->
  disabled_contract s contract_id -> disabled_contract s' contract_id.
Proof.
  intros Hstep (c & at_ & Hc & Hflag & Hat & Hne). unfold disabled_contract.
  destruct Hstep as [-> | id r Hid -> | id r data payload Hid Hd _ ->
                    | id r at' Hid Hat' ->].
  - by exists c, at_.
  - exists c, at_. rewrite lookup_insert_ne by congruence. done.
  - destruct (decide (id = contract_id)) as [->|Hneq].
    + rewrite Hc in Hid. injection Hid as <-.
      by rewrite (is_disabled_true c Hflag) in Hd.
    + exists c, at_. by rewrite lookup_insert_ne.
  - destruct (decide (id = contract_id)) as [->|Hneq].
    + eexists _, at'. rewrite lookup_insert_eq. split; [done|].
      rewrite lookup_insert_eq, lookup_insert_ne, lookup_insert_eq by done. done.
    + exists c, at_. by rewrite lookup_insert_ne.
Qed.

Lemma run_disabled (calls : list call) (s : db) (contract_id : Z) :
  disabled_contract s contract_id -> disabled_contract (run calls s) contract_id.
Proof.
  revert s. induction calls as [|c calls IH]; intros s H; [done|].
  cbn. apply IH. eapply contracts_step_disabled; [apply handle_contracts_step|done].
Qed.

Lemma route_update_contract_spec (now : date * time) (id : Z) (payload : row)
    (actor : UserAuthPydantic) (s : db) :
  route_update_contract (SpecDataManager now) id payload actor s
  = match validate_model ContractUpdatePydantic payload with
    | Valid data =>
        match contracts s !! id with
        | None => (Failure NOT_FOUND, s)
        | Some r =>
            if owns (auth_id actor) r then
              if is_disabled r
              then (Failure (FORBIDDEN "the contract is disabled"), s)
              else (Success (RRow (merge r data)),
                    set_table Contract (<[id := merge r data]> (contracts s)) s)
            else (Failure (FORBIDDEN "not a party to the contract"), s)
        end
    | Invalid errs => (Failure (VALIDATION_ERROR errs), s)
    | Raised e => (Failure (Unhandled e), s)
    end.
Proof.
  unfold route_update_contract, with_body.
  destruct (validate_model ContractUpdatePydantic payload); [|done..].
  unfold api_bind. cbn [update_contract SpecDataManager].
  rewrite update_entity_spec. cbn [table].
  destruct (contracts s !! id) as [r|]; [|done]. cbn [authorize].
  destruct (owns (auth_id actor) r); [|done]. by destruct (is_disabled r).
Qed.

(** C3. A disabled contract (flag set, timestamp there) stays disabled
    after every sequence of calls on the public surface; an update of it
    fails whatever the body and the caller, and leaves the store as it
    was; and no update body, accepted or not, changes the disabled flag
    or disabled_at of any contract, since ContractUpdatePydantic has no
    such fields. *)
Theorem disabled_contract_is_terminal (s : db) (contract_id : Z) :
  disabled_contract s contract_id ->
  (forall calls, disabled_contract (run calls s) contract_id)
  /\ (forall now actor payload, exists f,
        route_update_contract (SpecDataManager now) contract_id payload actor s
        = (Failure f, s))
  /\ (forall now actor id payload id' c,
        contracts s !! id' = Some c ->
        exists c',
          contracts (snd (route_update_contract (SpecDataManager now)
                            id payload actor s)) !! id' = Some c'
          /\ c' !! "disabled" = c !! "disabled"
          /\ c' !! "disabled_at" = c !! "disabled_at").
Proof.
  intros Hdis. split; [|split].
  - intros calls. by apply run_disabled.
  - intros now actor payload. rewrite route_update_contract_spec.
    destruct Hdis as (c & at_ & Hc & Hflag & _).
    rewrite Hc, (is_disabled_true c Hflag).
    destruct (validate_model ContractUpdatePydantic payload); [|eauto..].
    destruct (owns (auth_id actor) c); eauto.
  - intros now actor id payload id' c Hc. rewrite route_update_contract_spec.
    destruct (validate_model ContractUpdatePydantic payload) as [data| |] eqn:Hv;
      [|by exists c..].
    destruct (contracts s !! id) as [r|] eqn:Hr; [|by exists c].
    destruct (owns (auth_id actor) r); [|by exists c].
    destruct (is_disabled r); [by exists c|].
    cbn [snd set_table contracts].
    destruct (decide (id = id')) as [->|Hneq];
      [|exists c; by rewrite lookup_insert_ne].
    rewrite Hc in Hr. injection Hr as <-.
    exists (merge c data). rewrite lookup_insert_eq. split; [done|].
    split; apply merge_lookup_unset; rewrite (valid_fields_set _ _ _ _ Hv);
      intros [Hn _]; revert Hn; vm_compute; set_solver.
Qed.

(** * Further properties of the source *)

(** ** What an accepted body holds *)

Ltac field_facts f Hv :=
  destruct (valid_field_present _ _ _ f Hv) as [v Hp]; [in_list|done|];
  destruct (valid_field_runs _ _ _ f v Hv ltac:(in_list) Hp) as (Ht & v' & Hrun).

Ltac invert_time_range H :=
  unfold validate_time_range, time_range_cond, py_or, py_and, in_day in *;
  cbn in H |- *;
  repeat match type of H with
  | context [?a <? ?b] => destruct (Z.ltb_spec a b); cbn in H
  end; try discriminate H;
  repeat match goal with
  | |- context [?a <=? ?b] => destruct (Z.leb_spec a b); cbn
  end; try lia; try reflexivity.

Lemma validate_time_range_of_time (t : time) :
  validate_time_range (VTime t)
  = (if in_day t then Ret (VTime t)
     else Raise (ValueError "Time values must be within a valid 24-hour range")).
Proof.
  unfold validate_time_range, time_range_cond, py_or, py_and, in_day. cbn.
  destruct (Z.ltb_spec (hour t) 0), (Z.ltb_spec 23 (hour t)),
    (Z.ltb_spec (minute t) 0), (Z.ltb_spec 59 (minute t)); cbn;
  destruct (Z.leb_spec 0 (hour t)), (Z.leb_spec (hour t) 23),
    (Z.leb_spec 0 (minute t)), (Z.leb_spec (minute t) 59); cbn;
  first [ reflexivity | lia ].
Qed.

(** The time-range guard on an actual time or datetime is the range
    test it is meant to be: the object comes back when hour and minute
    are in range, and the ValueError is raised otherwise. *)
Theorem validate_time_range_on_times (d : date) (t : time) :
  validate_time_range (VTime t)
  = (if in_day t then Ret (VTime t)
     else Raise (ValueError "Time values must be within a valid 24-hour range"))
  /\ validate_time_range (VDateTime d t)
     = (if in_day t then Ret (VDateTime d t)
        else Raise (ValueError "Time values must be within a valid 24-hour range")).
Proof.
  split; [apply validate_time_range_of_time|].
  pose proof (validate_time_range_of_time t) as H.
  unfold validate_time_range, time_range_cond, py_or, py_and in *. cbn in *.
  destruct (hour t <? 0), (23 <? hour t), (minute t <? 0), (59 <? minute t);
    cbn in *; destruct (in_day t); (discriminate || reflexivity).
Qed.

Lemma time_field_in_day (v v' : pyval) :
  type_ok (checked (req "start" TTime) validate_time_range) v = true ->
  run_validators [validate_time_range] v = Ret v' ->
  exists t, v = VTime t /\ in_day t = true.
Proof.
  intros Ht Hrun. destruct v; try discriminate Ht.
  apply run_one_ret in Hrun.
  exists t. split; [done|].
  rewrite validate_time_range_of_time in Hrun.
  by destruct (in_day t).
Qed.

(** An accepted event creation body: the date is today or later, the
    duration is positive, the start is a time of day in range, and no
    optional time field is an explicit null. *)
Theorem event_body_accepted_facts (today : date) (payload : row)
    (data : model_instance) :
  validate_model (EventPydantic today) payload = Valid data ->
  (exists d, payload !! "date" = Some (VDate d) /\ date_le today d)
  /\ (exists secs, payload !! "duration" = Some (VDelta secs) /\ 0 < secs)
  /\ (exists t, payload !! "start" = Some (VTime t) /\ in_day t = true)
  /\ (forall n, n ∈ optional_times -> payload !! n <> Some VNone).
Proof.
  intros Hv. split; [|split; [|split]].
  - field_facts (checked (req "date" TDate) (validate_future_date today)) Hv.
    destruct v; try discriminate Ht. exists d. split; [exact Hp|].
    apply run_one_ret in Hrun. apply date_lt_false_le.
    unfold validate_future_date in Hrun. by destruct (date_lt d today).
  - field_facts (checked (req "duration" TDelta) validate_duration) Hv.
    destruct v; try discriminate Ht. exists seconds. split; [exact Hp|].
    apply run_one_ret in Hrun. unfold validate_duration in Hrun.
    destruct (Z.leb_spec seconds 0); [discriminate|lia].
  - field_facts (checked (req "start" TTime) validate_time_range) Hv.
    destruct (time_field_in_day v v' Ht Hrun) as (t & -> & Hin). by exists t.
  - intros n Hn Hp.
    destruct (time_range_guard_null_field today payload n Hn Hp) as [H _].
    by rewrite Hv in H.
Qed.

(** An accepted event update body names a date, and that date is today
    or later; its duration is positive: an update cannot keep a date
    that has passed, and cannot leave the date out or null. *)
Theorem event_update_body_accepted_facts (today : date) (payload : row)
    (data : model_instance) :
  validate_model (EventUpdatePydantic today) payload = Valid data ->
  (exists d, payload !! "date" = Some (VDate d) /\ date_le today d)
  /\ (exists secs, payload !! "duration" = Some (VDelta secs) /\ 0 < secs)
  /\ (forall n, n ∈ optional_times -> payload !! n <> Some VNone).
Proof.
  intros Hv. split; [|split].
  - field_facts (checked (opt_req "date" TDate) (validate_future_date today)) Hv.
    apply run_one_ret in Hrun.
    destruct v; try discriminate Ht; try discriminate Hrun.
    exists d. split; [exact Hp|]. apply date_lt_false_le.
    unfold validate_future_date in Hrun. by destruct (date_lt d today).
  - field_facts (checked (opt_req "duration" TDelta) validate_duration) Hv.
    apply run_one_ret in Hrun.
    destruct v; try discriminate Ht; try discriminate Hrun.
    exists seconds. split; [exact Hp|]. unfold validate_duration in Hrun.
    destruct (Z.leb_spec seconds 0); [discriminate|lia].
  - intros n Hn Hp.
    destruct (time_range_guard_null_field today payload n Hn Hp) as [_ [e H]].
    by rewrite Hv in H.
Qed.

(** An accepted contract update body names all seven fields that
    ContractUpdatePydantic declares without a default, and its
    currency_code is a string of the Currency table: never null. *)
Theorem contract_update_body_accepted_facts (payload : row) (data : model_instance) :
  validate_model ContractUpdatePydantic payload = Valid data ->
  (forall n, n ∈ contract_update_required -> is_Some (payload !! n))
  /\ exists s, payload !! "currency_code" = Some (VStr s) /\ s ∈ Currency.
Proof.
  intros Hv. split.
  - intros n Hn. unfold contract_update_required in Hn.
    each_field Hn;
      [ apply (valid_field_present _ _ _ (opt_req "name" TStr) Hv)
      | apply (valid_field_present _ _ _ (opt_req "offeree_id" TInt) Hv)
      | apply (valid_field_present _ _ _ (opt_req "total_fee" (TDecimal 2)) Hv)
      | apply (valid_field_present _ _ _
                 (checked (opt_req "currency_code" TStr) validate_currency_code) Hv)
      | apply (valid_field_present _ _ _ (opt_req "upon_signing" TInt) Hv)
      | apply (valid_field_present _ _ _ (opt_req "upon_completion" TInt) Hv)
      | apply (valid_field_present _ _ _ (opt_req "payment_method" TStr) Hv) ];
      first [ done | in_list ].
  - field_facts (checked (opt_req "currency_code" TStr) validate_currency_code) Hv.
    apply run_one_ret in Hrun.
    destruct v; try discriminate Ht; try discriminate Hrun.
    exists s. split; [exact Hp|].
    unfold validate_currency_code in Hrun. by case_bool_decide.
Qed.

(** ** Exceptions that escape, and those that cannot *)

(** A user update whose phone_number is an explicit null: [re.match]
    raises TypeError on None, the exception escapes validation, and the
    route ends with it before the data manager is reached, whatever the
    rest of the body. *)
Theorem user_update_null_phone_escapes
    (DB : Type) (dm : DataManagerInterface DB) (payload : row)
    (current_user : UserAuthPydantic) (db0 : DB) :
  payload !! "phone_number" = Some VNone ->
  validate_model UserUpdatePydantic payload = Raised TypeError
  /\ route_update_user dm payload current_user db0
     = (Failure (Unhandled TypeError), db0).
Proof.
  intros Hp.
  assert (Hv : validate_model UserUpdatePydantic payload = Raised TypeError).
  { destruct (model_field_crashes
                (checked (opt "phone_number" TStr) validate_phone_number)
                UserUpdatePydantic payload VNone TypeError) as [e He];
      [in_list|done|done|done|done|].
    rewrite He. f_equal.
    destruct (model_raised _ _ _ He) as (f & v & Hin & _ & _ & Hrun & Hne).
    each_field Hin; try discriminate Hrun.
    apply run_one in Hrun.
    by destruct (validate_phone_number_raises v e Hrun Hne) as [-> _]. }
  split; [exact Hv|].
  unfold route_update_user. by apply with_body_raised.
Qed.

Ltac phone_never_raises H e :=
  let f := fresh "f" in let v := fresh "v" in let Hin := fresh "Hin" in
  let Ht := fresh "Ht" in let Hrun := fresh "Hrun" in let Hne := fresh "Hne" in
  let Hv := fresh "Hv" in
  apply model_raised in H as (f & v & Hin & _ & Ht & Hrun & Hne);
  each_field Hin; try discriminate Hrun;
  apply run_one in Hrun;
  destruct (validate_phone_number_raises v e Hrun Hne) as [_ Hv];
  destruct v; try discriminate Ht;
  match goal with s : pystr |- _ => by destruct (Hv s) end.

Lemma UserNoPwdPydantic_never_raises (payload : row) (e : exn) :
  validate_model UserNoPwdPydantic payload <> Raised e.
Proof. intros H. phone_never_raises H e. Qed.

(** The bodies of sign-up, of profile creation and update, of contract
    creation and update and of accommodation creation, and the response
    model of the self-read, let no exception escape: every body is
    either accepted or refused with a validation error. *)
Theorem bodies_without_escaping_exception (payload : row) (e : exn) :
  validate_model UserCreatePydantic payload <> Raised e
  /\ validate_model UserNoPwdPydantic payload <> Raised e
  /\ validate_model ProfilePydantic payload <> Raised e
  /\ validate_model ContractPydantic payload <> Raised e
  /\ validate_model ContractUpdatePydantic payload <> Raised e
  /\ validate_model AccommodationPydantic payload <> Raised e.
Proof.
  split; [intros H; phone_never_raises H e|].
  split; [apply UserNoPwdPydantic_never_raises|].
  split; [intros H; apply model_raised in H as (f & v & Hin & _ & _ & Hrun & _);
          each_field Hin; discriminate Hrun|].
  split; [apply contract_models_never_raise|].
  split; [apply contract_models_never_raise|].
  intros H; phone_never_raises H e.
Qed.

(** ** The self-read on an incomplete row *)

(** When the row of the current user lacks one of the fields that
    UserNoPwdPydantic declares without a default, or its phone_number is
    a string the pattern refuses, get_user_me answers with the response
    validation error and no part of the row. *)
Theorem get_user_me_incomplete_row
    (DB : Type) (dm : DataManagerInterface DB) (current_user : UserAuthPydantic)
    (db0 db1 : DB) (user : row) :
  get_user_by_id DB dm (auth_id current_user) db0 = (Success user, db1) ->
  (exists n, n ∈ user_required /\ user !! n = None)
  \/ (exists s, user !! "phone_number" = Some (VStr s)
                /\ re_match phone_pattern s = false) ->
  route_get_user_me dm current_user db0
  = (Failure (Unhandled (ValueError "ResponseValidationError")), db1).
Proof.
  intros Hget Hbad. unfold route_get_user_me, api_bind. rewrite Hget.
  unfold with_response_model.
  assert (Hf : exists f, f ∈ UserNoPwdPydantic /\ field_fails f user).
  { destruct Hbad as [(n & Hn & Hnone) | (s & Hs & Hre)].
    - unfold user_required in Hn.
      each_field Hn;
        [ exists (req "id" TInt) | exists (req "username" TStr)
        | exists (req "type_of_entity" TStr) | exists (req "name" TStr)
        | exists (req "surname" TStr) | exists (req "email_address" TEmail)
        | exists (checked (req "phone_number" TStr) validate_phone_number)
        | exists (req "is_active" TBool) ];
        (split; [in_list|]); unfold field_fails; cbn; by rewrite Hnone.
    - exists (checked (req "phone_number" TStr) validate_phone_number).
      split; [in_list|]. unfold field_fails.
      change (f_name _) with "phone_number". rewrite Hs. right.
      exists "Invalid telephone number format".
      change (f_validators _) with [validate_phone_number].
      apply run_one_raise. unfold validate_phone_number. by rewrite Hre. }
  destruct Hf as (f & Hin & Hfail).
  pose proof (model_field_rejected f UserNoPwdPydantic user Hin Hfail) as Hrej.
  destruct (validate_model UserNoPwdPydantic user) as [i|errs|e] eqn:Hv;
    [done|done|].
  by destruct (UserNoPwdPydantic_never_raises user e).
Qed.

(** ** Dates and the clock *)

Lemma date_lt_spec (a b : date) :
  date_lt a b = true <->
  year a < year b
  \/ (year a = year b
      /\ (month a < month b \/ (month a = month b /\ day a < day b))).
Proof.
  unfold date_lt. rewrite !orb_true_iff, !andb_true_iff, !orb_true_iff,
    !andb_true_iff, !Z.ltb_lt, !Z.eqb_eq. reflexivity.
Qed.

Lemma date_lt_trans (a b c : date) :
  date_lt a b = true -> date_lt b c = true -> date_lt a c = true.
Proof. rewrite !date_lt_spec. lia. Qed.

(** The date rule follows the clock: a date refused on one day is
    refused on every later day, and a date accepted on one day was
    acceptable on every earlier day. *)
Theorem date_rule_follows_clock (day later d : date) :
  date_le day later ->
  (validate_future_date day (VDate d)
   = Raise (ValueError "Date must be today or in the future") ->
   validate_future_date later (VDate d)
   = Raise (ValueError "Date must be today or in the future"))
  /\ (validate_future_date later (VDate d) = Ret (VDate d) ->
      validate_future_date day (VDate d) = Ret (VDate d)).
Proof.
  intros Hle.
  assert (Hmono : date_lt d day = true -> date_lt d later = true).
  { intros H. destruct Hle as [<-|Hlt]; [done|]. by eapply date_lt_trans. }
  unfold validate_future_date. split.
  - destruct (date_lt d day); [|discriminate]. by rewrite Hmono.
  - destruct (date_lt d day); [|done]. by rewrite Hmono.
Qed.

(** ** Short telephone numbers *)

(** The empty string and every one-character string are refused,
    whatever the character tables: the pattern needs a digit and at
    least one more character. *)
Theorem phone_too_short_refused (c : N) :
  validate_phone_number (VStr [])
  = Raise (ValueError "Invalid telephone number format")
  /\ validate_phone_number (VStr [c])
     = Raise (ValueError "Invalid telephone number format").
Proof.
  split; [reflexivity|].
  unfold validate_phone_number, re_match, phone_pattern. cbn.
  by rewrite !andb_false_r.
Qed.

End Backend.

(** ** The route table *)

Lemma first_match_handled (rs : list Router.route) (m : Router.http_method)
    (pieces : list string) (partial : bool) (e : Router.endpoint)
    (params : list (string * string)) :
  Router.first_match rs m pieces partial = Router.Handled e params ->
  exists r, r ∈ rs /\ Router.r_endpoint r = e /\ Router.r_method r = m
            /\ Router.match_segments (Router.r_path r) pieces = Some params.
Proof.
  revert partial. induction rs as [|r rs IH]; intros partial; cbn.
  - destruct partial; discriminate.
  - destruct (Router.match_segments (Router.r_path r) pieces) as [ps|] eqn:Hm.
    + destruct (Router.method_eqb (Router.r_method r) m) eqn:Hmeth.
      * intros [= <- <-]. exists r. split; [left|].
        split; [done|]. split; [|done].
        destruct (Router.r_method r), m; done.
      * intros H. destruct (IH _ H) as (r' & Hin & Hr').
        exists r'. split; [by right|done].
    + intros H. destruct (IH _ H) as (r' & Hin & Hr').
      exists r'. split; [by right|done].
Qed.

Ltac invert_match H :=
  repeat first
    [ discriminate H
    | match type of H with
      | Router.match_segments _ ?ps = _ =>
          is_var ps; destruct ps; cbn -[String.eqb] in H
      | context [match ?ps with [] => _ | _ :: _ => _ end] =>
          is_var ps; destruct ps; cbn -[String.eqb] in H
      | context [String.eqb ?a ?b] =>
          destruct (String.eqb_spec a b); [subst|]; cbn -[String.eqb] in H
      end ].

(** No request reaches show_itinerary. Its template
    "/contract/itinerary" is declared after "/contract/{contract_id}"
    under the same method, so GET /contract/itinerary is handled by
    get_contract with contract_id bound to the text "itinerary". *)
Theorem show_itinerary_unreachable (m : Router.http_method) (path : string)
    (params : list (string * string)) :
  Router.dispatch m path <> Router.Handled Router.show_itinerary params
  /\ Router.dispatch Router.GET "/contract/itinerary"
     = Router.Handled Router.get_contract [("contract_id", "itinerary")].
Proof.
  split; [|reflexivity]. unfold Router.dispatch.
  destruct (Router.path_pieces path) as [pieces|]; [|discriminate].
  intros H.
  destruct (first_match_handled _ _ _ _ _ _ H) as (r & Hin & He & Hm & Hmatch).
  repeat (apply elem_of_cons in Hin as [->|Hin]); try discriminate He;
    [|by apply elem_of_nil in Hin].
  cbn in Hm. subst m. cbn [Router.r_path] in Hmatch.
  invert_match Hmatch. vm_compute in H. discriminate H.
Qed.

(** Every other route is reached by the requests it is declared for:
    a request with the route's method whose path fits the route's
    template is handled by that route's function, with the parameters
    the template binds. *)
Theorem every_other_route_reachable (r : Router.route) (path : string)
    (pieces : list string) (params : list (string * string)) :
  r ∈ Router.routes ->
  Router.r_endpoint r <> Router.show_itinerary ->
  Router.path_pieces path = Some pieces ->
  Router.match_segments (Router.r_path r) pieces = Some params ->
  Router.dispatch (Router.r_method r) path
  = Router.Handled (Router.r_endpoint r) params.
Proof.
  intros Hin Hne Hpath Hmatch. unfold Router.dispatch. rewrite Hpath. clear Hpath.
  repeat (apply elem_of_cons in Hin as [->|Hin]); [..|by apply elem_of_nil in Hin];
    try (by destruct Hne); clear Hne;
    cbn [Router.r_path Router.r_method Router.r_endpoint] in *;
    invert_match Hmatch; injection Hmatch as <-;
    try match goal with
        | Hs : ?x <> EmptyString |- _ => destruct x; [congruence|]
        end;
    vm_compute; reflexivity.
Qed.

(** ** The migration *)

Lemma has_column_app (name : string) (l1 l2 : list Migration.column) :
  Migration.has_column name (l1 ++ l2)
  = Migration.has_column name l1 || Migration.has_column name l2.
Proof. apply existsb_app. Qed.

Lemma has_column_cons (name : string) (c : Migration.column)
    (l : list Migration.column) :
  Migration.has_column name (c :: l)
  = String.eqb (Migration.col_name c) name || Migration.has_column name l.
Proof. reflexivity. Qed.

Lemma has_column_filter_ne (name other : string) (l : list Migration.column) :
  name <> other ->
  Migration.has_column name (filter (fun c => Migration.col_name c <> other) l)
  = Migration.has_column name l.
Proof.
  intros Hne. induction l as [|c l IH]; [done|].
  rewrite has_column_cons.
  destruct (decide (Migration.col_name c = other)) as [Heq|Hneq].
  - rewrite filter_cons_False by (by intros H). rewrite IH.
    destruct (String.eqb_spec (Migration.col_name c) name); [congruence|done].
  - rewrite filter_cons_True by done. by rewrite has_column_cons, IH.
Qed.

Lemma has_column_filter_eq (name : string) (l : list Migration.column) :
  Migration.has_column name (filter (fun c => Migration.col_name c <> name) l)
  = false.
Proof.
  induction l as [|c l IH]; [done|].
  destruct (decide (Migration.col_name c = name)) as [Heq|Hneq].
  - by rewrite filter_cons_False by (by intros H).
  - rewrite filter_cons_True by done. rewrite has_column_cons, IH.
    destruct (String.eqb_spec (Migration.col_name c) name); done.
Qed.

Lemma filter_absent_column (name : string) (l : list Migration.column) :
  Migration.has_column name l = false ->
  filter (fun c => Migration.col_name c <> name) l = l.
Proof.
  induction l as [|c l IH]; [done|]. rewrite has_column_cons.
  destruct (String.eqb_spec (Migration.col_name c) name); [discriminate|].
  intros H. rewrite filter_cons_True by done. by rewrite IH.
Qed.

(** On a schema whose accommodation table has the column
    telephon_number and not yet telephone_number, nothing in the schema
    stands in the way of the upgrade, nor of the downgrade after it; the
    round trip leaves every other column of the table in place and
    order, leaves every other table alone, and puts telephon_number back
    as the last column, a VARCHAR(255) NOT NULL, whatever its place and
    definition were before. *)
Theorem upgrade_downgrade_round_trip (s : Migration.schema)
    (cols : list Migration.column) :
  s !! "accommodation" = Some cols ->
  Migration.has_column "telephon_number" cols = true ->
  Migration.has_column "telephone_number" cols = false ->
  exists s1 s2,
    Migration.upgrade s = Some s1
    /\ Migration.downgrade s1 = Some s2
    /\ s1 !! "accommodation"
       = Some (filter (fun c => Migration.col_name c <> "telephon_number") cols
               ++ [Migration.Column "telephone_number" (Migration.VARCHAR 255) false])%list
    /\ s2 !! "accommodation"
       = Some (filter (fun c => Migration.col_name c <> "telephon_number") cols
               ++ [Migration.Column "telephon_number" (Migration.VARCHAR 255) false])%list
    /\ forall t, t <> "accommodation" -> s1 !! t = s !! t /\ s2 !! t = s !! t.
Proof.
  intros Hs Hold Hnew.
  set (kept := filter (fun c => Migration.col_name c <> "telephon_number") cols).
  set (new := Migration.Column "telephone_number" (Migration.VARCHAR 255) false).
  set (old := Migration.Column "telephon_number" (Migration.VARCHAR 255) false).
  assert (Hkept_new : Migration.has_column "telephone_number" kept = false).
  { unfold kept. by rewrite has_column_filter_ne. }
  assert (Hup : Migration.upgrade s
                = Some (<["accommodation" := (kept ++ [new])%list]> s)).
  { unfold Migration.upgrade, Migration.add_column. rewrite Hs. cbn [Migration.col_name].
    rewrite Hnew. cbn. unfold Migration.drop_column. rewrite lookup_insert_eq.
    rewrite has_column_app, Hold. cbn [orb].
    rewrite filter_app, insert_insert_eq. fold kept.
    by rewrite filter_cons_True, filter_nil by done. }
  assert (Hdown : Migration.downgrade (<["accommodation" := (kept ++ [new])%list]> s)
                  = Some (<["accommodation" := (kept ++ [old])%list]> s)).
  { unfold Migration.downgrade, Migration.add_column. rewrite lookup_insert_eq.
    cbn [Migration.col_name].
    rewrite has_column_app. unfold kept at 1. rewrite has_column_filter_eq.
    cbn. unfold Migration.drop_column. rewrite lookup_insert_eq.
    rewrite !has_column_app. cbn. rewrite orb_true_r.
    rewrite !filter_app, !insert_insert_eq.
    rewrite (filter_absent_column "telephone_number" kept Hkept_new).
    rewrite filter_cons_False, filter_nil by (by intros H).
    rewrite filter_cons_True, filter_nil by done.
    by rewrite app_nil_r. }
  exists (<["accommodation" := (kept ++ [new])%list]> s),
         (<["accommodation" := (kept ++ [old])%list]> s).
  split; [exact Hup|]. split; [exact Hdown|].
  split; [apply lookup_insert_eq|]. split; [apply lookup_insert_eq|].
  intros t Ht. by rewrite !lookup_insert_ne.
Qed.

(** The schema rules the upgrade out exactly when the accommodation
    table is missing, already has telephone_number, or has no
    telephon_number to drop; in particular the upgrade cannot be run
    twice in a row. *)
Theorem upgrade_failure (s : Migration.schema) :
  (Migration.upgrade s = None <->
     match s !! "accommodation" with
     | None => True
     | Some cols =>
         Migration.has_column "telephone_number" cols = true
         \/ Migration.has_column "telephon_number" cols = false
     end)
  /\ (forall s1, Migration.upgrade s = Some s1 -> Migration.upgrade s1 = None).
Proof.
  assert (Hchar : forall s0 : Migration.schema,
    Migration.upgrade s0 = None <->
    match s0 !! "accommodation" with
    | None => True
    | Some cols =>
        Migration.has_column "telephone_number" cols = true
        \/ Migration.has_column "telephon_number" cols = false
    end).
  { intros s0. unfold Migration.upgrade, Migration.add_column.
    destruct (s0 !! "accommodation") as [cols|] eqn:Hs; [|done].
    cbn [Migration.col_name].
    destruct (Migration.has_column "telephone_number" cols) eqn:Hnew; cbn.
    { split; [by left|done]. }
    unfold Migration.drop_column. rewrite lookup_insert_eq, has_column_app. cbn.
    rewrite orb_false_r.
    destruct (Migration.has_column "telephon_number" cols); cbn.
    - split; [discriminate|]. by intros [H|H].
    - split; [by right|done]. }
  split; [apply Hchar|].
  intros s1 Hup. apply Hchar.
  unfold Migration.upgrade, Migration.add_column in Hup.
  destruct (s !! "accommodation") as [cols|]; [|discriminate].
  cbn [Migration.col_name] in Hup.
  destruct (Migration.has_column "telephone_number" cols); [discriminate|].
  cbn in Hup. unfold Migration.drop_column in Hup.
  rewrite lookup_insert_eq in Hup.
  destruct (Migration.has_column "telephon_number" _); [|discriminate].
  injection Hup as <-. rewrite lookup_insert_eq. right.
  apply has_column_filter_eq.
Qed.

(** * Worked examples *)

Ltac by_computation := vm_compute; reflexivity.

(** "1<TAB>2" and "1<LF>" have a character that is neither a digit, nor
    the space, nor a dash, and are accepted: tab and newline are in
    [\s]. *)
Lemma phone_tab_and_newline_accepted :
  spec_phone_pattern (str "1" ++ [tab] ++ str "2")%list = false
  /\ validate_phone_number ascii_digit ascii_space
       (VStr (str "1" ++ [tab] ++ str "2")%list)
     = Ret (VStr (str "1" ++ [tab] ++ str "2")%list)
  /\ spec_phone_pattern (str "1" ++ [newline])%list = false
  /\ validate_phone_number ascii_digit ascii_space (VStr (str "1" ++ [newline])%list)
     = Ret (VStr (str "1" ++ [newline])%list).
Proof. repeat split; by_computation. Defined.

(** "+49 30-1234" with the ASCII digits and spaces. *)
Lemma phone_validation_exact_witness :
  ascii_digit plus_sign = false
  /\ ascii_space newline = true
  /\ ascii_space space = true
  /\ spec_phone_pattern (str "+49 30-1234") = true
  /\ phone_shape ascii_digit ascii_space (str "+49 30-1234") = true
  /\ re_match ascii_digit ascii_space phone_pattern (str "+49 30-1234") = true
  /\ validate_phone_number ascii_digit ascii_space (VStr (str "+49 30-1234"))
     = Ret (VStr (str "+49 30-1234")).
Proof.
  assert (H1 : ascii_digit plus_sign = false) by reflexivity.
  assert (H2 : ascii_space newline = true) by reflexivity.
  assert (H3 : forall c, ascii_digit c = true -> ascii_digit c = true) by done.
  assert (H4 : ascii_space space = true) by reflexivity.
  assert (H5 : spec_phone_pattern (str "+49 30-1234") = true) by by_computation.
  assert (H6 : phone_shape ascii_digit ascii_space (str "+49 30-1234") = true)
    by by_computation.
  destruct (phone_validation_exact ascii_digit ascii_space (str "+49 30-1234")
              H1 H2 H3 H4) as (Hre & Hacc & _ & Hspec).
  split; [exact H1|]. split; [exact H2|]. split; [exact H4|].
  split; [exact H5|]. split; [exact H6|].
  split; [by rewrite Hre|exact (Hspec H5)].
Defined.

(** Requests of 2026-11-03: an event of the day before, the same with
    stage_set given as null, and an event of the day itself. *)
Lemma event_date_today_or_later_witness :
  date_lt (Date 2026 11 2) (Date 2026 11 3) = true
  /\ date_le (Date 2026 11 3) (Date 2026 11 3)
  /\ <["stage_set" := VNone]> (event_body (Date 2026 11 2)) !! "date"
     = Some (VDate (Date 2026 11 2))
  /\ route_create_event any_format any_format
       (SpecDataManager sample_hash sample_clock) (Date 2026 11 3)
       (<["stage_set" := VNone]> (event_body (Date 2026 11 2))) alice sample_store
     = (Failure (Unhandled AttributeError), sample_store)
  /\ (exists errs,
        route_create_event any_format any_format
          (SpecDataManager sample_hash sample_clock) (Date 2026 11 3)
          (event_body (Date 2026 11 2)) alice sample_store
        = (Failure (VALIDATION_ERROR errs), sample_store)
        /\ "date" ∈ errs)
  /\ (exists data,
        validate_model any_format any_format (EventPydantic (Date 2026 11 3))
          (event_body (Date 2026 11 3)) = Valid data
        /\ route_create_event any_format any_format
             (SpecDataManager sample_hash sample_clock) (Date 2026 11 3)
             (event_body (Date 2026 11 3)) alice sample_store
           = api_bind
               (create_event db (SpecDataManager sample_hash sample_clock) data alice)
               (fun id_event => api_ret (RNewId "event_id" id_event))
               sample_store)
  /\ fst (route_create_event any_format any_format
            (SpecDataManager sample_hash sample_clock) (Date 2026 11 3)
            (event_body (Date 2026 11 3)) alice sample_store)
     = Success (RNewId "event_id" 0).
Proof.
  assert (Hlt : date_lt (Date 2026 11 2) (Date 2026 11 3) = true) by reflexivity.
  assert (Hle : date_le (Date 2026 11 3) (Date 2026 11 3)) by (by left).
  assert (Hnull : <["stage_set" := VNone]> (event_body (Date 2026 11 2)) !! "date"
                  = Some (VDate (Date 2026 11 2))) by by_computation.
  assert (Hpast : event_body (Date 2026 11 2) !! "date"
                  = Some (VDate (Date 2026 11 2))) by by_computation.
  assert (Htoday : event_body (Date 2026 11 3) !! "date"
                   = Some (VDate (Date 2026 11 3))) by by_computation.
  split; [exact Hlt|]. split; [exact Hle|]. split; [exact Hnull|].
  split; [|split; [|split]].
  - apply (proj1 (proj2 (proj2 (proj2 (event_date_today_or_later any_format
             any_format (Date 2026 11 3) (Date 2026 11 2)))) db
             (SpecDataManager sample_hash sample_clock) _ alice sample_store Hnull)
             Hlt).
    exists "stage_set". split; [unfold optional_times; repeat constructor|by_computation].
  - apply (proj1 (proj2 (proj2 (proj2 (event_date_today_or_later any_format
             any_format (Date 2026 11 3) (Date 2026 11 2)))) db
             (SpecDataManager sample_hash sample_clock) _ alice sample_store Hpast)
             Hlt).
    intros n Hn. unfold optional_times in Hn.
    repeat (apply elem_of_cons in Hn as [->|Hn]); [..|by apply elem_of_nil in Hn];
      by vm_compute.
  - apply (proj2 (proj2 (proj2 (proj2 (event_date_today_or_later any_format
             any_format (Date 2026 11 3) (Date 2026 11 3)))) db
             (SpecDataManager sample_hash sample_clock) _ alice sample_store Htoday)
             Hle).
    intros f Hin Hname.
    repeat (apply elem_of_cons in Hin as [->|Hin]); [..|by apply elem_of_nil in Hin];
      try (by destruct Hname); unfold field_ok; vm_compute; eauto.
  - by_computation.
Defined.

(** "XXX" is a member of the table, and a contract in "XXX" is created. *)
Lemma contract_currency_XXX_accepted :
  str "XXX" ∈ currency_sample
  /\ validate_currency_code currency_sample (VStr (str "XXX")) = Ret (VStr (str "XXX"))
  /\ fst (route_create_contract currency_sample any_format any_format
            (SpecDataManager sample_hash sample_clock)
            (contract_body "XXX") alice sample_store)
     = Success (RNewId "contract_id" 2)
  /\ contracts
       (snd (route_create_contract currency_sample any_format any_format
               (SpecDataManager sample_hash sample_clock)
               (contract_body "XXX") alice sample_store)) !! 2
     ≫= (fun c : row => c !! "currency_code")
     = Some (VStr (str "XXX"))
  /\ contracts sample_store !! 2 = None.
Proof.
  split; [apply (bool_decide_unpack _); by_computation|].
  repeat split; by_computation.
Defined.

(** "ZZZ" is outside the table. *)
Lemma contract_currency_outside_table_witness :
  (forall s, contract_body "ZZZ" !! "currency_code" = Some (VStr s) ->
             s ∉ currency_sample)
  /\ (exists errs,
        route_create_contract currency_sample any_format any_format
          (SpecDataManager sample_hash sample_clock)
          (contract_body "ZZZ") alice sample_store
        = (Failure (VALIDATION_ERROR errs), sample_store)
        /\ "currency_code" ∈ errs)
  /\ (forall s, validate_currency_code currency_sample (VStr s) = Ret (VStr s)
               <-> s ∈ currency_sample).
Proof.
  assert (H : forall s, contract_body "ZZZ" !! "currency_code" = Some (VStr s) ->
                        s ∉ currency_sample).
  { intros s Hs. vm_compute in Hs. injection Hs as <-.
    apply (bool_decide_unpack _). by_computation. }
  split; [exact H|].
  apply (contract_currency_outside_table_rejected currency_sample
           any_format any_format db (SpecDataManager sample_hash sample_clock)
           (contract_body "ZZZ") alice sample_store H).
Defined.

(** Alice reads her own record: the stored hash is not in the answer. *)
Lemma get_user_me_projection_witness :
  route_get_user_me ascii_digit ascii_space any_format any_format
    (SpecDataManager sample_hash sample_clock) alice sample_store
  = (Success (RRow (<["vat_id" := VNone]> (<["bank_account" := VNone]>
       (<["delete_at" := VNone]> (delete "hashed_password" alice_row))))),
     sample_store)
  /\ exists user proj,
       get_user_by_id db (SpecDataManager sample_hash sample_clock)
         (auth_id alice) sample_store = (Success user, sample_store)
       /\ RRow (<["vat_id" := VNone]> (<["bank_account" := VNone]>
            (<["delete_at" := VNone]> (delete "hashed_password" alice_row))))
          = RRow proj
       /\ dom proj = list_to_set user_projection
       /\ ("password" ∉ dom proj)
       /\ ("hashed_password" ∉ dom proj)
       /\ forall n, n ∈ user_projection ->
            proj !! n = Some (default VNone (user !! n)).
Proof.
  assert (H : route_get_user_me ascii_digit ascii_space any_format any_format
                (SpecDataManager sample_hash sample_clock) alice sample_store
              = (Success (RRow (<["vat_id" := VNone]> (<["bank_account" := VNone]>
                   (<["delete_at" := VNone]> (delete "hashed_password" alice_row))))),
                 sample_store)) by by_computation.
  split; [exact H|].
  exact (get_user_me_projection ascii_digit ascii_space any_format any_format
           db (SpecDataManager sample_hash sample_clock) alice
           sample_store sample_store _ H).
Defined.

(** Bob on Alice's profile. *)
Lemma profile_update_delete_owner_only_witness :
  exists data,
    profiles sample_store !! 0 = Some band_profile
    /\ owner_user_id band_profile = Some 1
    /\ validate_model any_format any_format ProfilePydantic profile_body = Valid data
    /\ (auth_id bob <> 1 ->
          route_update_profile any_format any_format
            (SpecDataManager sample_hash sample_clock) 0 profile_body bob sample_store
          = (Failure (FORBIDDEN "not the owner"), sample_store)
          /\ route_delete_profile (SpecDataManager sample_hash sample_clock)
               0 bob sample_store
             = (Failure (FORBIDDEN "not the owner"), sample_store))
    /\ (auth_id bob = 1 ->
          route_update_profile any_format any_format
            (SpecDataManager sample_hash sample_clock) 0 profile_body bob sample_store
          = (Success (RRow (merge band_profile data)),
             set_table Profile (<[0 := merge band_profile data]> (profiles sample_store))
               sample_store)
          /\ route_delete_profile (SpecDataManager sample_hash sample_clock)
               0 bob sample_store
             = (Success (RMessage "Profile deleted successfully"),
                set_table Profile (delete 0 (profiles sample_store)) sample_store)).
Proof.
  destruct (validate_model any_format any_format ProfilePydantic profile_body)
    as [data| |] eqn:Hv; [|by vm_compute in Hv..].
  exists data.
  assert (H1 : profiles sample_store !! 0 = Some band_profile) by by_computation.
  assert (H2 : owner_user_id band_profile = Some 1) by by_computation.
  split; [exact H1|]. split; [exact H2|]. split; [reflexivity|].
  exact (profile_update_delete_owner_only any_format any_format sample_hash
           sample_clock sample_store 0 1 band_profile profile_body data bob
           H1 H2 Hv).
Defined.

(** Alice, soft-deleted on 2026-10-01. *)
Lemma soft_deleted_user_can_reactivate_witness :
  users sample_store !! auth_id alice = Some alice_row
  /\ alice_row !! "deactivation_date"
     = Some (VDateTime (Date 2026 10 1) (Time 9 0 0))
  /\ VDateTime (Date 2026 10 1) (Time 9 0 0) <> VNone
  /\ (exists payload u' s',
        route_update_user ascii_digit ascii_space any_format any_format
          (SpecDataManager sample_hash sample_clock) payload alice sample_store
        = (Success (RRow u'), s')
        /\ users s' !! auth_id alice = Some u'
        /\ u' !! "is_active" = Some (VBool true)
        /\ u' !! "deactivation_date" = Some VNone
        /\ forall c, c <> "is_active" -> c <> "deactivation_date" ->
             u' !! c = alice_row !! c).
Proof.
  assert (H1 : users sample_store !! auth_id alice = Some alice_row)
    by by_computation.
  assert (H2 : alice_row !! "deactivation_date"
               = Some (VDateTime (Date 2026 10 1) (Time 9 0 0))) by by_computation.
  assert (H3 : VDateTime (Date 2026 10 1) (Time 9 0 0) <> VNone) by discriminate.
  split; [exact H1|]. split; [exact H2|]. split; [exact H3|].
  exact (proj1 (soft_deleted_user_can_reactivate ascii_digit ascii_space
                  currency_sample any_format any_format sample_hash sample_clock
                  sample_store alice alice_row _ H1 H2 H3)).
Defined.

(** A body with the name alone, and a body with a null name, sent by the
    owner to update_profile: both are refused and the profile stays. *)
Lemma update_profile_partial_body_refused :
  route_update ascii_digit ascii_space currency_sample any_format any_format
    sample_accommodation_update (SpecDataManager sample_hash sample_clock)
    (fst sample_clock) Profile 0 profile_body_name_only alice sample_store
  = (Failure (VALIDATION_ERROR
       ["performance_type"; "description"; "bio"; "social_media"; "photos";
        "videos"; "audios"; "online_press"]), sample_store)
  /\ route_update ascii_digit ascii_space currency_sample any_format any_format
       sample_accommodation_update (SpecDataManager sample_hash sample_clock)
       (fst sample_clock) Profile 0 profile_body_null_name alice sample_store
     = (Failure (VALIDATION_ERROR ["name"]), sample_store)
  /\ owner_user_id band_profile = Some (auth_id alice)
  /\ profiles sample_store !! 0 = Some band_profile.
Proof. repeat split; by_computation. Defined.

(** Alice renames herself: one field in the body, the rest stays. The
    same body sent to her profile leaves performance_type out. *)
Lemma update_is_partial_merge_witness :
  exists data,
    NoDup (names sample_accommodation_update)
    /\ pure_validators sample_accommodation_update
    /\ validate_model any_format any_format
         (update_model ascii_digit ascii_space currency_sample
            sample_accommodation_update (fst sample_clock) User)
         profile_body_name_only = Valid data
    /\ table User sample_store !! update_target User 0 alice = Some alice_row
    /\ authorize sample_store (auth_id alice) User (update_target User 0 alice)
         alice_row Update = ALLOW
    /\ route_update ascii_digit ascii_space currency_sample any_format any_format
         sample_accommodation_update (SpecDataManager sample_hash sample_clock)
         (fst sample_clock) User 0 profile_body_name_only alice sample_store
       = (Success (RRow (merge alice_row data)),
          set_table User
            (<[update_target User 0 alice := merge alice_row data]>
               (table User sample_store)) sample_store)
    /\ (forall c, c ∉ dom profile_body_name_only ->
          merge alice_row data !! c = alice_row !! c)
    /\ merge alice_row data !! "name" = Some (VStr (str "New name"))
    /\ field_fails any_format any_format (req "performance_type" TStr)
         profile_body_name_only
    /\ exists errs,
         "performance_type" ∈ errs
         /\ route_update ascii_digit ascii_space currency_sample any_format
              any_format sample_accommodation_update
              (SpecDataManager sample_hash sample_clock)
              (fst sample_clock) Profile 0 profile_body_name_only alice sample_store
            = (Failure (VALIDATION_ERROR errs), sample_store).
Proof.
  destruct (validate_model any_format any_format
              (update_model ascii_digit ascii_space currency_sample
                 sample_accommodation_update (fst sample_clock) User)
              profile_body_name_only) as [data| |] eqn:Hv; [|by vm_compute in Hv..].
  exists data.
  assert (Hnd : NoDup (names sample_accommodation_update))
    by (apply (bool_decide_unpack _); by_computation).
  assert (H1 : table User sample_store !! update_target User 0 alice = Some alice_row)
    by by_computation.
  assert (H2 : authorize sample_store (auth_id alice) User
                 (update_target User 0 alice) alice_row Update = ALLOW)
    by by_computation.
  assert (H3 : field_fails any_format any_format (req "performance_type" TStr)
                 profile_body_name_only) by by_computation.
  destruct (proj2 (proj2 (update_is_partial_merge_when_accepted ascii_digit
                     ascii_space currency_sample any_format any_format
                     sample_accommodation_update sample_hash sample_clock User 0
                     profile_body_name_only alice sample_store Hnd
                     sample_accommodation_update_pure)) data alice_row Hv H1 H2)
    as (Hroute & Habsent & _ & Hsupplied).
  destruct (update_is_partial_merge_when_accepted ascii_digit
              ascii_space currency_sample any_format any_format
              sample_accommodation_update sample_hash sample_clock Profile 0
              profile_body_name_only alice sample_store Hnd
              sample_accommodation_update_pure) as (Hrefused & Hescapes & _).
  split; [exact Hnd|]. split; [exact sample_accommodation_update_pure|].
  split; [reflexivity|]. split; [exact H1|]. split; [exact H2|].
  split; [exact Hroute|]. split; [exact Habsent|].
  split; [apply Hsupplied; [vm_compute; repeat constructor|by_computation]|].
  split; [exact H3|].
  apply (Hrefused (req "performance_type" TStr)); [repeat constructor|exact H3|].
  intros g Hg Hesc.
  destruct (Hescapes g ltac:(discriminate) Hg Hesc) as [[Hk|Hk] _]; discriminate Hk.
Defined.

(** Alice's disabled contract 1. *)
Lemma disabled_contract_is_terminal_witness :
  disabled_contract sample_store 1
  /\ (forall calls,
        disabled_contract
          (run ascii_digit ascii_space currency_sample any_format any_format
             sample_accommodation_update sample_hash calls sample_store) 1)
  /\ (forall now actor payload, exists f,
        route_update_contract currency_sample any_format any_format
          (SpecDataManager sample_hash now) 1 payload actor sample_store
        = (Failure f, sample_store)).
Proof.
  assert (H : disabled_contract sample_store 1).
  { exists cancelled_contract, (VDateTime (Date 2026 10 20) (Time 12 0 0)).
    split; [by_computation|]. split; [by_computation|].
    split; [by_computation|discriminate]. }
  split; [exact H|].
  destruct (disabled_contract_is_terminal ascii_digit ascii_space
              currency_sample any_format any_format sample_accommodation_update
              sample_hash sample_store 1 H) as (Hrun & Hupd & _).
  split; [exact Hrun|exact Hupd].
Defined.

(** A concert on the day of the request. *)
Lemma event_body_accepted_facts_witness :
  exists data,
    validate_model any_format any_format (EventPydantic (Date 2026 11 3))
      (event_body (Date 2026 11 3)) = Valid data
    /\ (exists d, event_body (Date 2026 11 3) !! "date" = Some (VDate d)
                  /\ date_le (Date 2026 11 3) d)
    /\ (exists secs, event_body (Date 2026 11 3) !! "duration" = Some (VDelta secs)
                     /\ 0 < secs)
    /\ (exists t, event_body (Date 2026 11 3) !! "start" = Some (VTime t)
                  /\ in_day t = true)
    /\ (forall n, n ∈ optional_times ->
          event_body (Date 2026 11 3) !! n <> Some VNone).
Proof.
  destruct (validate_model any_format any_format (EventPydantic (Date 2026 11 3))
              (event_body (Date 2026 11 3))) as [data| |] eqn:Hv;
    [|by vm_compute in Hv..].
  exists data. split; [reflexivity|].
  exact (event_body_accepted_facts any_format any_format (Date 2026 11 3)
           (event_body (Date 2026 11 3)) data Hv).
Defined.

(** The same body sent as an update, one day before the concert. *)
Lemma event_update_body_accepted_facts_witness :
  exists data,
    validate_model any_format any_format (EventUpdatePydantic (Date 2026 11 2))
      (event_body (Date 2026 11 3)) = Valid data
    /\ (exists d, event_body (Date 2026 11 3) !! "date" = Some (VDate d)
                  /\ date_le (Date 2026 11 2) d)
    /\ (exists secs, event_body (Date 2026 11 3) !! "duration" = Some (VDelta secs)
                     /\ 0 < secs)
    /\ (forall n, n ∈ optional_times ->
          event_body (Date 2026 11 3) !! n <> Some VNone).
Proof.
  destruct (validate_model any_format any_format (EventUpdatePydantic (Date 2026 11 2))
              (event_body (Date 2026 11 3))) as [data| |] eqn:Hv;
    [|by vm_compute in Hv..].
  exists data. split; [reflexivity|].
  exact (event_update_body_accepted_facts any_format any_format (Date 2026 11 2)
           (event_body (Date 2026 11 3)) data Hv).
Defined.

(** A complete contract body in US dollars, sent as an update. *)
Lemma contract_update_body_accepted_facts_witness :
  exists data,
    validate_model any_format any_format (ContractUpdatePydantic currency_sample)
      (contract_body "USD") = Valid data
    /\ (forall n, n ∈ contract_update_required ->
          is_Some (contract_body "USD" !! n))
    /\ exists s, contract_body "USD" !! "currency_code" = Some (VStr s)
                 /\ s ∈ currency_sample.
Proof.
  destruct (validate_model any_format any_format
              (ContractUpdatePydantic currency_sample) (contract_body "USD"))
    as [data| |] eqn:Hv; [|by vm_compute in Hv..].
  exists data. split; [reflexivity|].
  exact (contract_update_body_accepted_facts currency_sample any_format
           any_format (contract_body "USD") data Hv).
Defined.

(** Alice clears her telephone number. *)
Lemma user_update_null_phone_escapes_witness :
  ({[ "phone_number" := VNone ]} : row) !! "phone_number" = Some VNone
  /\ validate_model any_format any_format (UserUpdatePydantic ascii_digit ascii_space)
       {[ "phone_number" := VNone ]} = Raised TypeError
  /\ route_update_user ascii_digit ascii_space any_format any_format
       (SpecDataManager sample_hash sample_clock) {[ "phone_number" := VNone ]}
       alice sample_store
     = (Failure (Unhandled TypeError), sample_store).
Proof.
  assert (H : ({[ "phone_number" := VNone ]} : row) !! "phone_number" = Some VNone)
    by by_computation.
  split; [exact H|].
  exact (user_update_null_phone_escapes ascii_digit ascii_space any_format
           any_format db (SpecDataManager sample_hash sample_clock)
           {[ "phone_number" := VNone ]} alice sample_store H).
Defined.

(** Alice's row without is_active. *)
Lemma get_user_me_incomplete_row_witness :
  get_user_by_id db (SpecDataManager sample_hash sample_clock) (auth_id alice)
    incomplete_store
  = (Success (delete "is_active" alice_row), incomplete_store)
  /\ ("is_active" ∈ user_required
      /\ delete "is_active" alice_row !! "is_active" = None)
  /\ route_get_user_me ascii_digit ascii_space any_format any_format
       (SpecDataManager sample_hash sample_clock) alice incomplete_store
     = (Failure (Unhandled (ValueError "ResponseValidationError")), incomplete_store).
Proof.
  assert (H1 : get_user_by_id db (SpecDataManager sample_hash sample_clock)
                 (auth_id alice) incomplete_store
               = (Success (delete "is_active" alice_row), incomplete_store))
    by by_computation.
  assert (H2 : "is_active" ∈ user_required
               /\ delete "is_active" alice_row !! "is_active" = None).
  { split; [unfold user_required; repeat constructor|by_computation]. }
  split; [exact H1|]. split; [exact H2|].
  exact (get_user_me_incomplete_row ascii_digit ascii_space any_format any_format
           db (SpecDataManager sample_hash sample_clock) alice incomplete_store
           incomplete_store (delete "is_active" alice_row) H1
           (or_introl (ex_intro _ "is_active" H2))).
Defined.

(** 2026-11-02, judged on 2026-11-03 and on 2026-12-01. *)
Lemma date_rule_follows_clock_witness :
  date_le (Date 2026 11 3) (Date 2026 12 1)
  /\ validate_future_date (Date 2026 11 3) (VDate (Date 2026 11 2))
     = Raise (ValueError "Date must be today or in the future")
  /\ validate_future_date (Date 2026 12 1) (VDate (Date 2026 11 2))
     = Raise (ValueError "Date must be today or in the future").
Proof.
  assert (H1 : date_le (Date 2026 11 3) (Date 2026 12 1)) by (right; reflexivity).
  assert (H2 : validate_future_date (Date 2026 11 3) (VDate (Date 2026 11 2))
               = Raise (ValueError "Date must be today or in the future"))
    by reflexivity.
  split; [exact H1|]. split; [exact H2|].
  exact (proj1 (date_rule_follows_clock (Date 2026 11 3) (Date 2026 12 1)
                  (Date 2026 11 2) H1) H2).
Defined.

(** PUT /contract/7. *)
Lemma every_other_route_reachable_witness :
  Router.Route Router.PUT [Router.Lit "contract"; Router.Param "contract_id"]
    Router.update_contract ∈ Router.routes
  /\ Router.update_contract <> Router.show_itinerary
  /\ Router.path_pieces "/contract/7" = Some ["contract"; "7"]
  /\ Router.match_segments [Router.Lit "contract"; Router.Param "contract_id"]
       ["contract"; "7"] = Some [("contract_id", "7")]
  /\ Router.dispatch Router.PUT "/contract/7"
     = Router.Handled Router.update_contract [("contract_id", "7")].
Proof.
  assert (H1 : Router.Route Router.PUT
                 [Router.Lit "contract"; Router.Param "contract_id"]
                 Router.update_contract ∈ Router.routes)
    by (unfold Router.routes; repeat first [ apply list_elem_of_here
                                           | apply list_elem_of_further ]).
  assert (H2 : Router.update_contract <> Router.show_itinerary) by discriminate.
  assert (H3 : Router.path_pieces "/contract/7" = Some ["contract"; "7"])
    by reflexivity.
  assert (H4 : Router.match_segments
                 [Router.Lit "contract"; Router.Param "contract_id"]
                 ["contract"; "7"] = Some [("contract_id", "7")]) by reflexivity.
  split; [exact H1|]. split; [exact H2|]. split; [exact H3|]. split; [exact H4|].
  exact (every_other_route_reachable _ "/contract/7" _ _ H1 H2 H3 H4).
Defined.

(** The accommodation table before the migration. *)
Lemma upgrade_downgrade_round_trip_witness :
  Migration.sample_schema !! "accommodation"
  = Some [ Migration.Column "id" (Migration.VARCHAR 36) false;
           Migration.Column "name" (Migration.VARCHAR 255) false;
           Migration.Column "telephon_number" (Migration.VARCHAR 255) false;
           Migration.Column "email" (Migration.VARCHAR 255) true ]
  /\ exists s1 s2,
       Migration.upgrade Migration.sample_schema = Some s1
       /\ Migration.downgrade s1 = Some s2
       /\ s2 !! "accommodation"
          = Some [ Migration.Column "id" (Migration.VARCHAR 36) false;
                   Migration.Column "name" (Migration.VARCHAR 255) false;
                   Migration.Column "email" (Migration.VARCHAR 255) true;
                   Migration.Column "telephon_number" (Migration.VARCHAR 255) false ].
Proof.
  assert (H1 : Migration.sample_schema !! "accommodation"
               = Some [ Migration.Column "id" (Migration.VARCHAR 36) false;
                        Migration.Column "name" (Migration.VARCHAR 255) false;
                        Migration.Column "telephon_number" (Migration.VARCHAR 255) false;
                        Migration.Column "email" (Migration.VARCHAR 255) true ])
    by by_computation.
  split; [exact H1|].
  destruct (upgrade_downgrade_round_trip Migration.sample_schema _ H1
              eq_refl eq_refl) as (s1 & s2 & Hup & Hdown & _ & Hs2 & _).
  exists s1, s2. split; [exact Hup|]. split; [exact Hdown|]. exact Hs2.
Defined.

(** The upgrade cannot be repeated on the sample schema. *)
Lemma upgrade_failure_witness :
  exists s1,
    Migration.upgrade Migration.sample_schema = Some s1
    /\ Migration.upgrade s1 = None.
Proof.
  destruct (Migration.upgrade Migration.sample_schema) as [s1|] eqn:Hup;
    [|by vm_compute in Hup].
  exists s1. split; [reflexivity|].
  exact (proj2 (upgrade_failure Migration.sample_schema) s1 Hup).
Defined.
